(** * Output dispatch of the protocol-decoder base class (type_decoder.c)

    A shallow embedding of [convert_pyobj], [Decoder_put] and [Decoder_add],
    the two methods that the [sigrokdecode.Decoder] base class offers to
    protocol decoders written in Python, together with the properties of the
    output-dispatch design that they implement.

    Conventions of the embedding:
    - a C [int] or [long] is a [Z]; the conversions between the widths that
      the code goes through are written out ([to_int], [to_guint],
      [to_uint64]).  The data model is LP64: 32-bit [int] and [guint], 64-bit
      [long] and [uint64_t];
    - a [GSList] is a [list]; a pointer that may be [NULL] is an [option];
    - a [PyObject *] is a value of [pyobj]; the reference counts are not
      represented;
    - the code runs in a monad [M] that threads the engine state, collects
      what the function itself logs and calls, and has an outcome [Fault]
      for a dereference of [NULL];
    - the Python [decode] method of a stacked decoder, the annotation
      callback of the host and the output registry [pd_add] are outside this
      file: they are variables of the section, free to change the engine. *)

From Stdlib Require Import ZArith List String Ascii Bool Lia.
Import ListNotations.
Local Open Scope Z_scope.
Set Warnings "-register-all".

(** ** Machine integers *)

Definition INT_MIN : Z := - 2 ^ 31.
Definition INT_MAX : Z := 2 ^ 31 - 1.
Definition LONG_MIN : Z := - 2 ^ 63.
Definition LONG_MAX : Z := 2 ^ 63 - 1.

(** Conversion of an integer value to [int]: reduction modulo 2^32 into
    the range of the type. *)
Definition to_int (z : Z) : Z := (z + 2 ^ 31) mod 2 ^ 32 - 2 ^ 31.

(** Conversion to [guint] ([unsigned int]). *)
Definition to_guint (z : Z) : Z := z mod 2 ^ 32.

(** Conversion to [uint64_t] ([unsigned long long]). *)
Definition to_uint64 (z : Z) : Z := z mod 2 ^ 64.

Definition in_int_range (z : Z) : bool := (INT_MIN <=? z) && (z <=? INT_MAX).

Arguments to_int : simpl never.
Arguments to_guint : simpl never.
Arguments to_uint64 : simpl never.

(** ** GLib singly linked lists *)

(** [g_slist_nth (list, n)]: the cell at position [n], [NULL] when the list
    is shorter.  [n] is a [guint]. *)
Fixpoint g_slist_nth {A : Type} (list : list A) (n : Z) : option A :=
  match list with
  | [] => None
  | x :: next => if n <=? 0 then Some x else g_slist_nth next (n - 1)
  end.

(** [g_slist_nth_data (list, n)]: the data of that cell, [NULL] when there
    is none. *)
Definition g_slist_nth_data {A : Type} (list : list A) (n : Z) : option A :=
  g_slist_nth list n.

Arguments g_slist_nth_data : simpl never.

(** ** Python objects *)

Inductive pyobj : Type :=
| Py_None
| PyLong (value : Z)
| PyFloat (digits : string)
| PyUnicode (text : string)
| PyBytes (bytes : string)
| PyList (items : list pyobj)
| PyTuple (items : list pyobj).

Definition PyList_Check (o : pyobj) : bool :=
  match o with PyList _ => true | _ => false end.

Definition PyTuple_Check (o : pyobj) : bool :=
  match o with PyTuple _ => true | _ => false end.

Definition PyLong_Check (o : pyobj) : bool :=
  match o with PyLong _ => true | _ => false end.

(** [ob_type->tp_name]. *)
Definition tp_name (o : pyobj) : string :=
  match o with
  | Py_None => "NoneType"
  | PyLong _ => "int"
  | PyFloat _ => "float"
  | PyUnicode _ => "str"
  | PyBytes _ => "bytes"
  | PyList _ => "list"
  | PyTuple _ => "tuple"
  end%string.

(** [PyList_Size]: the length of a list object; -1 (and a pending
    [SystemError]) for an object of any other type, a tuple included. *)
Definition PyList_Size (o : pyobj) : Z :=
  match o with
  | PyList items => Z.of_nat (List.length items)
  | _ => -1
  end.

(** [PyList_GetItem]: [NULL] for an object that is not a list and for an
    index outside the list. *)
Definition PyList_GetItem (o : pyobj) (i : Z) : option pyobj :=
  match o with
  | PyList items => if i <? 0 then None else nth_error items (Z.to_nat i)
  | _ => None
  end.

(** [PyLong_AsLong]: the value when it fits a [long]; -1 (and a pending
    [OverflowError]) when it does not. *)
Definition PyLong_AsLong (o : pyobj) : Z :=
  match o with
  | PyLong z => if (LONG_MIN <=? z) && (z <=? LONG_MAX) then z else -1
  | _ => -1
  end.

Arguments PyLong_AsLong : simpl never.

Definition has_nul (s : string) : bool :=
  existsb (fun c => Ascii.eqb c Ascii.zero) (list_ascii_of_string s).

(** [PyArg_ParseTuple (args, "KKiO", ...)].  [K] takes an integer object
    without overflow checking, [i] takes one that fits an [int], [O] takes
    any object. *)
Definition PyArg_ParseTuple_KKiO (args : pyobj) : option (Z * Z * Z * pyobj) :=
  match args with
  | PyTuple [PyLong a; PyLong b; PyLong c; d] =>
      if in_int_range c then Some (to_uint64 a, to_uint64 b, c, d) else None
  | _ => None
  end.

(** [PyArg_ParseTuple (args, "is", ...)].  [s] takes a string object without
    an embedded null character. *)
Definition PyArg_ParseTuple_is (args : pyobj) : option (Z * string) :=
  match args with
  | PyTuple [PyLong a; PyUnicode s] =>
      if in_int_range a && negb (has_nul s) then Some (a, s) else None
  | _ => None
  end.

(** [Py_BuildValue ("i", v)]. *)
Definition Py_BuildValue_i (v : Z) : pyobj := PyLong v.

(** ** Data of the decoder library *)

Inductive srd_status : Type :=
| SRD_OK
| SRD_ERR_MALLOC
| SRD_ERR_PYTHON.

Definition srd_status_eqb (a b : srd_status) : bool :=
  match a, b with
  | SRD_OK, SRD_OK | SRD_ERR_MALLOC, SRD_ERR_MALLOC
  | SRD_ERR_PYTHON, SRD_ERR_PYTHON => true
  | _, _ => false
  end.

(** Modelled from the spec: the enumeration of output types of
    sigrokdecode.h, which is not among the sources; the spec names its
    members as Annotation, Protocol and Binary, and C numbers them from 0 in
    the order of the [switch] of [Decoder_put]. *)
Definition SRD_OUTPUT_ANN : Z := 0.
Definition SRD_OUTPUT_PROTO : Z := 1.
Definition SRD_OUTPUT_BINARY : Z := 2.

(** Modelled from the spec: [struct srd_pd_output] of sigrokdecode.h, an
    output stream descriptor with its output type and its protocol
    identifier; [pdo_id] is its 0-based handle. *)
Record srd_pd_output : Type := {
  pdo_id : Z;
  output_type : Z;
  proto_id : string
}.

(** Modelled from the spec: [struct srd_decoder], the static metadata of a
    decoder, of which the code reads the name and the list of registered
    annotation formats. *)
Record srd_decoder : Type := {
  name : string;
  annotations : list (list string)
}.

(** Modelled from the spec: [struct srd_decoder_instance].  A pointer to an
    instance in [next_di] is represented by the instance it points to. *)
Inductive srd_decoder_instance : Type := Build_srd_decoder_instance {
  decoder : srd_decoder;
  instance_id : string;
  py_instance : N;
  pd_output : list srd_pd_output;
  next_di : list srd_decoder_instance
}.

(** Modelled from the spec: [struct srd_proto_data], the data unit in
    transit.  [data] is [NULL] until the annotation strings are attached. *)
Record srd_proto_data : Type := {
  start_sample : Z;
  end_sample : Z;
  pdo : srd_pd_output;
  ann_format : Z;
  data : option (list string)
}.

(** The [data] field of the unit behind the cast of [&pdata->data] to a
    pointer to an array of strings. *)
Definition ann_of_data (pdata : srd_proto_data) : option (list string) :=
  data pdata.

(** Modelled from the spec: an entry of the process-wide callback table, one
    callback (a function pointer, here its address) per output kind. *)
Record srd_pd_callback : Type := {
  cb_output_type : Z;
  callback : N
}.

(** The state of the engine that the code of this file reads: the list of
    decoder instances, the callback table, and whether the allocator can
    serve a request. *)
Record engine : Type := {
  di_list : list srd_decoder_instance;
  callbacks : list srd_pd_callback;
  mem_available : bool
}.

(** ** What a call logs and invokes *)

Inductive message : Type :=
| Msg_not_a_list (decoder_name type_name : string)
| Msg_list_size (decoder_name : string) (size : Z)
| Msg_first_not_integer (decoder_name : string)
| Msg_unregistered_format (decoder_name : string) (ann_id : Z)
| Msg_second_not_list (decoder_name : string)
| Msg_second_malformed (decoder_name : string)
| Msg_invalid_output_id (decoder_name : string) (output_id : Z)
| Msg_binary_not_supported
| Msg_invalid_output_type (decoder_name : string) (output_type : Z)
| Msg_instance_not_found.

Inductive event : Type :=
| Ev_srd_err (m : message)
| Ev_srd_dbg (m : message)
| Ev_catch_exception (prefix : string)
| Ev_PyErr_SetString (text : string)
| Ev_callback (cb : N) (pdata : srd_proto_data)
| Ev_decode (next : srd_decoder_instance) (start_sample end_sample : Z)
            (data : pyobj).

(** ** The monad of the embedding *)

Inductive outcome (A : Type) : Type :=
| Done (value : A) (e : engine) (trace : list event)
| Fault.
Arguments Done {A} value e trace.
Arguments Fault {A}.

Definition M (A : Type) : Type := engine -> outcome A.

Definition ret {A : Type} (a : A) : M A := fun e => Done a e [].

Definition bind {A B : Type} (m : M A) (f : A -> M B) : M B :=
  fun e =>
    match m e with
    | Fault => Fault
    | Done a e1 t1 =>
        match f a e1 with
        | Fault => Fault
        | Done b e2 t2 => Done b e2 (t1 ++ t2)
        end
    end.

Declare Scope srd_scope.
Delimit Scope srd_scope with srd.
Notation "x <- c ;; k" := (bind c (fun x => k))
  (at level 61, c at next level, right associativity) : srd_scope.
Notation "c ;; k" := (bind c (fun _ => k))
  (at level 61, right associativity) : srd_scope.
Local Open Scope srd_scope.

Definition emit (ev : event) : M unit := fun e => Done tt e [ev].
Definition the_engine : M engine := fun e => Done e e [].
Definition fault {A : Type} : M A := fun _ => Fault.

(** The object behind a pointer that the code dereferences unchecked. *)
Definition deref {A : Type} (p : option A) : M A :=
  match p with
  | Some a => ret a
  | None => fault
  end.

Definition srd_err (m : message) : M unit := emit (Ev_srd_err m).
Definition srd_dbg (m : message) : M unit := emit (Ev_srd_dbg m).
Definition catch_exception (prefix : string) : M unit :=
  emit (Ev_catch_exception prefix).
Definition PyErr_SetString (text : string) : M unit :=
  emit (Ev_PyErr_SetString text).

(** [g_try_malloc0]: whether the block was obtained. *)
Definition g_try_malloc0 : M bool := fun e => Done (mem_available e) e [].

(** ** Helpers of the library that the code calls *)

(** Modelled from the spec: [py_strlist_to_char] of util.c, which is not
    among the sources.  Each item of the list must be convertible to a
    string; the conversion builds an owned ordered sequence of strings, and
    is rejected if any item is not string-like.  [outstr] is written on
    success only. *)
Fixpoint strings_of_items (items : list pyobj) : option (list string) :=
  match items with
  | [] => Some []
  | PyUnicode s :: rest =>
      match strings_of_items rest with
      | Some strs => Some (s :: strs)
      | None => None
      end
  | _ :: _ => None
  end.

Definition py_strlist_to_char (py_strlist : pyobj)
    (outstr : option (list string)) : srd_status * option (list string) :=
  match py_strlist with
  | PyList items =>
      match strings_of_items items with
      | Some strs => (SRD_OK, Some strs)
      | None => (SRD_ERR_PYTHON, outstr)
      end
  | _ => (SRD_ERR_PYTHON, outstr)
  end.

(** Modelled from the spec: [get_di_by_decobject] of controller.c, which is
    not among the sources.  The spec gives [put] and [add] the instance
    itself; the code finds it from the Python decoder object, here by a
    search of the list of instances, and gets [NULL] when the object belongs
    to none. *)
Definition get_di_by_decobject (e : engine) (decobject : N)
    : option srd_decoder_instance :=
  find (fun di => N.eqb (py_instance di) decobject) (di_list e).

(** Modelled from the spec: [srd_find_callback] of controller.c, which is
    not among the sources: the callback registered for the output kind in
    the process-wide dispatch table, [NULL] when none is registered. *)
Definition srd_find_callback (e : engine) (output_type : Z) : option N :=
  match find (fun c => cb_output_type c =? output_type) (callbacks e) with
  | Some c => Some (callback c)
  | None => None
  end.

(** ** The code of type_decoder.c *)

Section Decoder.

(** [PyObject_CallMethod (next_di->py_instance, "decode", "KKO", ...)]:
    the result of the Python method, [NULL] when it raised, and the engine
    it leaves behind. *)
Variable PyObject_CallMethod_decode :
  srd_decoder_instance -> Z -> Z -> pyobj -> engine -> option pyobj * engine.

(** The call [cb (pdata)] of the function behind a callback pointer. *)
Variable call_callback : N -> srd_proto_data -> engine -> engine.

(** [pd_add] of controller.c, the output registry: the new handle, or a
    negative value when no stream was created. *)
Variable pd_add :
  srd_decoder_instance -> Z -> string -> engine -> Z * engine.

Definition run_decode (next : srd_decoder_instance)
    (start_sample end_sample : Z) (data : pyobj) : M (option pyobj) :=
  fun e =>
    let (py_res, e') :=
      PyObject_CallMethod_decode next start_sample end_sample data e in
    Done py_res e' [Ev_decode next start_sample end_sample data].

Definition run_callback (cb : N) (pdata : srd_proto_data) : M unit :=
  fun e => Done tt (call_callback cb pdata e) [Ev_callback cb pdata].

Definition run_pd_add (di : srd_decoder_instance) (output_type : Z)
    (proto_id : string) : M Z :=
  fun e => let (pdo_id, e') := pd_add di output_type proto_id e in
           Done pdo_id e' [].

(** [convert_pyobj (di, obj, &ann_format, &ann)]; the two cells behind the
    pointers are passed in and returned with the status. *)
Definition convert_pyobj (di : srd_decoder_instance) (obj : pyobj)
    (ann_format : Z) (ann : option (list string))
    : M (srd_status * Z * option (list string)) :=
  (* Should be a list of [annotation format, [string, ...]] *)
  if negb (PyList_Check obj) && negb (PyTuple_Check obj) then
    srd_err (Msg_not_a_list (name (decoder di)) (tp_name obj)) ;;
    ret (SRD_ERR_PYTHON, ann_format, ann)
  (* Should have 2 elements... *)
  else if negb (PyList_Size obj =? 2) then
    srd_err (Msg_list_size (name (decoder di)) (to_int (PyList_Size obj))) ;;
    ret (SRD_ERR_PYTHON, ann_format, ann)
  else
    (* First element should be an integer matching a previously
       registered annotation format. *)
    py_tmp <- deref (PyList_GetItem obj 0) ;;
    if negb (PyLong_Check py_tmp) then
      srd_err (Msg_first_not_integer (name (decoder di))) ;;
      ret (SRD_ERR_PYTHON, ann_format, ann)
    else
      let ann_id := to_int (PyLong_AsLong py_tmp) in
      match g_slist_nth_data (annotations (decoder di)) (to_guint ann_id) with
      | None =>
          srd_err (Msg_unregistered_format (name (decoder di)) ann_id) ;;
          ret (SRD_ERR_PYTHON, ann_format, ann)
      | Some _ =>
          let ann_format := ann_id in
          (* Second element must be a list *)
          py_tmp <- deref (PyList_GetItem obj 1) ;;
          if negb (PyList_Check py_tmp) then
            srd_err (Msg_second_not_list (name (decoder di))) ;;
            ret (SRD_ERR_PYTHON, ann_format, ann)
          else
            let (status, ann) := py_strlist_to_char py_tmp ann in
            if negb (srd_status_eqb status SRD_OK) then
              srd_err (Msg_second_malformed (name (decoder di))) ;;
              ret (SRD_ERR_PYTHON, ann_format, ann)
            else
              ret (SRD_OK, ann_format, ann)
      end.

(** The loop of the [SRD_OUTPUT_PROTO] case over [di->next_di]. *)
Fixpoint call_next_di (l : list srd_decoder_instance)
    (start_sample end_sample : Z) (data : pyobj) : M unit :=
  match l with
  | [] => ret tt
  | next_di :: next =>
      py_res <- run_decode next_di start_sample end_sample data ;;
      match py_res with
      | None =>
          catch_exception
            ("calling " ++ instance_id next_di ++ " decode(): ")%string
      | Some _ => ret tt
      end ;;
      call_next_di next start_sample end_sample data
  end.

Definition Decoder_put (self : N) (args : pyobj) : M (option pyobj) :=
  e <- the_engine ;;
  match get_di_by_decobject e self with
  | None => ret None
  | Some di =>
  match PyArg_ParseTuple_KKiO args with
  | None => ret None
  | Some (start_sample, end_sample, output_id, data) =>
  match g_slist_nth (pd_output di) (to_guint output_id) with
  | None =>
      srd_err (Msg_invalid_output_id (name (decoder di)) output_id) ;;
      ret None
  | Some pdo =>
  allocated <- g_try_malloc0 ;;
  if negb allocated then ret None else
  let pdata := {| start_sample := start_sample; end_sample := end_sample;
                  pdo := pdo; ann_format := 0; data := None |} in
  (if output_type pdo =? SRD_OUTPUT_ANN then
     (* Annotations are only fed to callbacks. *)
     e <- the_engine ;;
     match srd_find_callback e (output_type pdo) with
     | Some cb =>
         (* Annotations need converting from PyObject. *)
         r <- convert_pyobj di data (ann_format pdata)
                (ann_of_data pdata) ;;
         let '(status, ann_format', data') := r in
         let pdata := {| start_sample := start_sample;
                         end_sample := end_sample; pdo := pdo;
                         ann_format := ann_format'; data := data' |} in
         if negb (srd_status_eqb status SRD_OK) then
           (* An error was already logged. *)
           ret tt
         else
           run_callback cb pdata
     | None => ret tt
     end
   else if output_type pdo =? SRD_OUTPUT_PROTO then
     call_next_di (next_di di) start_sample end_sample data
   else if output_type pdo =? SRD_OUTPUT_BINARY then
     srd_err Msg_binary_not_supported
   else
     srd_err (Msg_invalid_output_type (name (decoder di)) (output_type pdo))) ;;
  ret (Some Py_None)
  end end end.

Definition Decoder_add (self : N) (args : pyobj) : M (option pyobj) :=
  e <- the_engine ;;
  match get_di_by_decobject e self with
  | None =>
      srd_dbg Msg_instance_not_found ;;
      PyErr_SetString "decoder instance not found" ;;
      ret None
  | Some di =>
  match PyArg_ParseTuple_is args with
  | None =>
      catch_exception "" ;;
      ret None
  | Some (output_type, proto_id) =>
      pdo_id <- run_pd_add di output_type proto_id ;;
      if pdo_id <? 0 then ret (Some Py_None)
      else ret (Some (Py_BuildValue_i pdo_id))
  end end.

End Decoder.

(** ** Reading a trace *)

(** The calls of successors' [decode] that a trace records, in order. *)
Fixpoint decode_calls (t : list event)
    : list (srd_decoder_instance * Z * Z * pyobj) :=
  match t with
  | [] => []
  | Ev_decode next s e d :: t' => (next, s, e, d) :: decode_calls t'
  | _ :: t' => decode_calls t'
  end.

(** The calls of callbacks that a trace records, in order. *)
Fixpoint callback_calls (t : list event) : list (N * srd_proto_data) :=
  match t with
  | [] => []
  | Ev_callback cb pdata :: t' => (cb, pdata) :: callback_calls t'
  | _ :: t' => callback_calls t'
  end.

(** The diagnostics that a trace records, in order. *)
Fixpoint diagnostics (t : list event) : list message :=
  match t with
  | [] => []
  | Ev_srd_err m :: t' => m :: diagnostics t'
  | _ :: t' => diagnostics t'
  end.

(** The call returned an object to its Python caller, and not [NULL], by
    which a method reports a failure to the interpreter. *)
Definition returns_normally (o : outcome (option pyobj)) : Prop :=
  exists v e t, o = Done (Some v) e t.

(** The output streams and the successors that the engine holds for the
    instance of a decoder object. *)
Definition streams_and_successors (e : engine) (self : N)
    : option (list srd_pd_output * list srd_decoder_instance) :=
  match get_di_by_decobject e self with
  | Some di => Some (pd_output di, next_di di)
  | None => None
  end.

(** ** Vocabulary of the statements *)

(** The argument tuple of a call [put (start, end, handle, payload)] from
    Python. *)
Definition put_args (s en h : Z) (payload : pyobj) : pyobj :=
  PyTuple [PyLong s; PyLong en; PyLong h; payload].

(** The argument tuple of a call [add (output_type, proto_id)]. *)
Definition add_args (output_type : Z) (proto_id : string) : pyobj :=
  PyTuple [PyLong output_type; PyUnicode proto_id].

(** The handle [h], an [int], is the 0-based position of the descriptor
    [pdo] in the instance's list of output streams. *)
Definition resolves (di : srd_decoder_instance) (h : Z) (pdo : srd_pd_output)
    : Prop :=
  0 <= h <= INT_MAX /\ nth_error (pd_output di) (Z.to_nat h) = Some pdo.

(** The annotation payload [[format_id, [s1, ..., sn]]]. *)
Definition annotation_payload (format_id : Z) (strs : list string) : pyobj :=
  PyList [PyLong format_id; PyList (map PyUnicode strs)].

(** The same payload as a tuple, [(format_id, [s1, ..., sn])]. *)
Definition annotation_tuple (format_id : Z) (strs : list string) : pyobj :=
  PyTuple [PyLong format_id; PyList (map PyUnicode strs)].

(** [format_id] indexes a registered annotation format of the decoder. *)
Definition registered_format (d : srd_decoder) (format_id : Z) : Prop :=
  0 <= format_id < Z.of_nat (List.length (annotations d)).

(** The text that [catch_exception] is given for a failed successor. *)
Definition decode_failure_prefix (next : srd_decoder_instance) : string :=
  ("calling " ++ instance_id next ++ " decode(): ")%string.

(** The fan-out of a protocol emission as the design describes it: the
    successors are taken in their declared order; each has its [decode]
    called with the same start, end and payload, in the engine that the
    call before it left; a call that fails is caught and logged with the
    identity of the successor, and the next successor is called all the
    same.  [fan_out decode s en d l e e' t]: from the engine [e], the
    fan-out to the successors [l] ends in [e'] with the trace [t]. *)
Inductive fan_out
    (decode : srd_decoder_instance -> Z -> Z -> pyobj -> engine ->
              option pyobj * engine)
    (s en : Z) (d : pyobj)
    : list srd_decoder_instance -> engine -> engine -> list event -> Prop :=
| fan_out_done (e : engine) :
    fan_out decode s en d [] e e []
| fan_out_returned (next : srd_decoder_instance)
    (l : list srd_decoder_instance) (e e1 e' : engine) (res : pyobj)
    (t : list event) :
    decode next s en d e = (Some res, e1) ->
    fan_out decode s en d l e1 e' t ->
    fan_out decode s en d (next :: l) e e' (Ev_decode next s en d :: t)
| fan_out_failed (next : srd_decoder_instance)
    (l : list srd_decoder_instance) (e e1 e' : engine) (t : list event) :
    decode next s en d e = (None, e1) ->
    fan_out decode s en d l e1 e' t ->
    fan_out decode s en d (next :: l) e e'
      (Ev_decode next s en d
       :: Ev_catch_exception (decode_failure_prefix next) :: t).

(** ** Vocabulary of the further statements *)

(** The value of the variable [ann_id] of the converter when the first
    element of the payload is the Python integer [id]. *)
Definition ann_id_of (id : Z) : Z := to_int (PyLong_AsLong (PyLong id)).

(** [ann_id], as the unsigned index that the lookup of the format takes, is
    within the annotation formats of the decoder. *)
Definition indexes_format (d : srd_decoder) (ann_id : Z) : Prop :=
  to_guint ann_id < Z.of_nat (List.length (annotations d)).

(** The outcomes of the six checks of the converter, in their order, on the
    payload [obj]: the status with the two cells as they are left, and what
    is logged.  [f] and [a] are the cells as they are found. *)
Inductive validation (di : srd_decoder_instance) (f : Z)
    (a : option (list string))
    : pyobj -> srd_status * Z * option (list string) -> list event -> Prop :=
| not_a_sequence (obj : pyobj) :
    PyList_Check obj = false -> PyTuple_Check obj = false ->
    validation di f a obj (SRD_ERR_PYTHON, f, a)
      [Ev_srd_err (Msg_not_a_list (name (decoder di)) (tp_name obj))]
| tuple_has_no_size (items : list pyobj) :
    validation di f a (PyTuple items) (SRD_ERR_PYTHON, f, a)
      [Ev_srd_err (Msg_list_size (name (decoder di)) (-1))]
| not_two_elements (items : list pyobj) :
    List.length items <> 2%nat ->
    validation di f a (PyList items) (SRD_ERR_PYTHON, f, a)
      [Ev_srd_err (Msg_list_size (name (decoder di))
                     (to_int (Z.of_nat (List.length items))))]
| first_not_an_integer (first second : pyobj) :
    PyLong_Check first = false ->
    validation di f a (PyList [first; second]) (SRD_ERR_PYTHON, f, a)
      [Ev_srd_err (Msg_first_not_integer (name (decoder di)))]
| format_not_registered (id : Z) (second : pyobj) :
    ~ indexes_format (decoder di) (ann_id_of id) ->
    validation di f a (PyList [PyLong id; second]) (SRD_ERR_PYTHON, f, a)
      [Ev_srd_err (Msg_unregistered_format (name (decoder di)) (ann_id_of id))]
| second_not_a_list (id : Z) (second : pyobj) :
    indexes_format (decoder di) (ann_id_of id) ->
    PyList_Check second = false ->
    validation di f a (PyList [PyLong id; second])
      (SRD_ERR_PYTHON, ann_id_of id, a)
      [Ev_srd_err (Msg_second_not_list (name (decoder di)))]
| strings_malformed (id : Z) (items : list pyobj) (status : srd_status)
    (a' : option (list string)) :
    indexes_format (decoder di) (ann_id_of id) ->
    py_strlist_to_char (PyList items) a = (status, a') ->
    status <> SRD_OK ->
    validation di f a (PyList [PyLong id; PyList items])
      (SRD_ERR_PYTHON, ann_id_of id, a')
      [Ev_srd_err (Msg_second_malformed (name (decoder di)))]
| converted (id : Z) (items : list pyobj) (a' : option (list string)) :
    indexes_format (decoder di) (ann_id_of id) ->
    py_strlist_to_char (PyList items) a = (SRD_OK, a') ->
    validation di f a (PyList [PyLong id; PyList items])
      (SRD_OK, ann_id_of id, a') [].

(** The payloads that pass the six checks in a [put], where the cell of the
    strings is found empty. *)
Definition accepted_payload (di : srd_decoder_instance) (payload : pyobj)
    : Prop :=
  exists id items,
    payload = PyList [PyLong id; PyList items]
    /\ indexes_format (decoder di) (ann_id_of id)
    /\ fst (py_strlist_to_char (PyList items) None) = SRD_OK.

(** The call gets as far as the [switch] on the output type: the decoder
    object has an instance, the arguments parse, the handle finds a cell of
    the list of output streams and the data unit is allocated. *)
Definition reaches_switch (e : engine) (self : N) (args : pyobj) : Prop :=
  exists di s en h d pdo,
    get_di_by_decobject e self = Some di
    /\ PyArg_ParseTuple_KKiO args = Some (s, en, h, d)
    /\ g_slist_nth (pd_output di) (to_guint h) = Some pdo
    /\ mem_available e = true.

(** What the [switch] of [Decoder_put] does with an emission, from the
    engine [e] to the engine [e'] with the trace [t]: it calls the
    annotation callback, once, with the converted payload; or it fans a
    protocol emission out to the successors; or it dispatches nothing,
    logging at most one diagnostic. *)
Inductive switch_result
    (decode : srd_decoder_instance -> Z -> Z -> pyobj -> engine ->
              option pyobj * engine)
    (cb_call : N -> srd_proto_data -> engine -> engine)
    (di : srd_decoder_instance) (s en : Z) (d : pyobj) (pdo : srd_pd_output)
    (e : engine) : engine -> list event -> Prop :=
| switch_callback (cb : N) (fmt : Z) (strs : option (list string)) :
    output_type pdo = SRD_OUTPUT_ANN ->
    srd_find_callback e SRD_OUTPUT_ANN = Some cb ->
    accepted_payload di d ->
    indexes_format (decoder di) fmt ->
    let pdata := {| start_sample := s; end_sample := en; pdo := pdo;
                    ann_format := fmt; data := strs |} in
    switch_result decode cb_call di s en d pdo e
      (cb_call cb pdata e) [Ev_callback cb pdata]
| switch_fan_out (e' : engine) (t : list event) :
    output_type pdo = SRD_OUTPUT_PROTO ->
    fan_out decode s en d (next_di di) e e' t ->
    switch_result decode cb_call di s en d pdo e e' t
| switch_nothing :
    output_type pdo = SRD_OUTPUT_ANN ->
    srd_find_callback e SRD_OUTPUT_ANN = None ->
    switch_result decode cb_call di s en d pdo e e []
| switch_rejected (cb : N) (m : message) :
    output_type pdo = SRD_OUTPUT_ANN ->
    srd_find_callback e SRD_OUTPUT_ANN = Some cb ->
    ~ accepted_payload di d ->
    switch_result decode cb_call di s en d pdo e e [Ev_srd_err m]
| switch_binary :
    output_type pdo = SRD_OUTPUT_BINARY ->
    switch_result decode cb_call di s en d pdo e e
      [Ev_srd_err Msg_binary_not_supported]
| switch_unknown :
    output_type pdo <> SRD_OUTPUT_ANN ->
    output_type pdo <> SRD_OUTPUT_PROTO ->
    output_type pdo <> SRD_OUTPUT_BINARY ->
    switch_result decode cb_call di s en d pdo e e
      [Ev_srd_err (Msg_invalid_output_type (name (decoder di))
                     (output_type pdo))].

(** ** A small engine to run the code on *)

Module Sample.

Definition uart : srd_decoder :=
  {| name := "uart"; annotations := [["bit"; "Bit"]; ["byte"; "Byte"]] |}%string.

Definition modbus : srd_decoder :=
  {| name := "modbus"; annotations := [["frame"; "Frame"]] |}%string.

Definition di_b : srd_decoder_instance :=
  Build_srd_decoder_instance modbus "modbus-1" 2 [] [].

Definition di_c : srd_decoder_instance :=
  Build_srd_decoder_instance modbus "modbus-2" 3 [] [].

Definition out_ann : srd_pd_output :=
  {| pdo_id := 0; output_type := SRD_OUTPUT_ANN; proto_id := "uart" |}.

Definition out_proto : srd_pd_output :=
  {| pdo_id := 1; output_type := SRD_OUTPUT_PROTO; proto_id := "uart" |}.

Definition out_binary : srd_pd_output :=
  {| pdo_id := 2; output_type := SRD_OUTPUT_BINARY; proto_id := "uart" |}.

Definition out_unknown : srd_pd_output :=
  {| pdo_id := 3; output_type := 7; proto_id := "uart" |}.

Definition outputs_a : list srd_pd_output :=
  [out_ann; out_proto; out_binary; out_unknown].

Definition di_a : srd_decoder_instance :=
  Build_srd_decoder_instance uart "uart-1" 1 outputs_a [di_b; di_c].

Definition with_callback : engine :=
  {| di_list := [di_a; di_b; di_c];
     callbacks := [ {| cb_output_type := SRD_OUTPUT_ANN; callback := 64 |} ];
     mem_available := true |}.

Definition without_callback : engine :=
  {| di_list := [di_a; di_b; di_c]; callbacks := []; mem_available := true |}.

Definition out_of_memory : engine :=
  {| di_list := [di_a; di_b; di_c]; callbacks := []; mem_available := false |}.

(** A [decode] that raises in the first stacked decoder and returns [None]
    in every other one; each call registers one more callback, so that
    the engine is seen to change. *)
Definition decode (next : srd_decoder_instance) (s e : Z) (d : pyobj)
    (eng : engine) : option pyobj * engine :=
  (if N.eqb (py_instance next) 2 then None else Some Py_None,
   {| di_list := di_list eng;
      callbacks := callbacks eng ++
                   [ {| cb_output_type := SRD_OUTPUT_PROTO;
                        callback := py_instance next |} ];
      mem_available := mem_available eng |}).

(** A callback of the host that leaves the engine alone. *)
Definition host_callback (cb : N) (pdata : srd_proto_data) (eng : engine)
    : engine := eng.

Definition append_output (di : srd_decoder_instance) (o : srd_pd_output)
    : srd_decoder_instance :=
  Build_srd_decoder_instance (decoder di) (instance_id di) (py_instance di)
    (pd_output di ++ [o]) (next_di di).

(** Modelled from the spec: the output registry, [pd_add] of controller.c,
    which is not among the sources.  It appends a new descriptor to the
    instance's ordered list and returns its index as the handle; it does
    not fail except on resource exhaustion, which it reports by a negative
    result. *)
Definition registry (di : srd_decoder_instance) (output_type : Z)
    (proto_id : string) (eng : engine) : Z * engine :=
  if mem_available eng then
    let pdo_id := Z.of_nat (List.length (pd_output di)) in
    let o := {| pdo_id := pdo_id; output_type := output_type;
                proto_id := proto_id |} in
    (pdo_id,
     {| di_list :=
          map (fun d => if N.eqb (py_instance d) (py_instance di)
                        then append_output d o else d) (di_list eng);
        callbacks := callbacks eng;
        mem_available := mem_available eng |})
  else (-1, eng).

Definition put := Decoder_put decode host_callback.
Definition add := Decoder_add registry.

End Sample.

(** An instance of a decoder that registered no annotation format, with an
    annotation stream, in an engine that has a callback for annotations. *)
Module Sample_plain.

Definition plain : srd_decoder := {| name := "plain"; annotations := [] |}.

Definition di_plain : srd_decoder_instance :=
  Build_srd_decoder_instance plain "plain-1" 9 [Sample.out_ann] [].

Definition engine_plain : engine :=
  {| di_list := [di_plain];
     callbacks := [ {| cb_output_type := SRD_OUTPUT_ANN; callback := 64 |} ];
     mem_available := true |}.

End Sample_plain.

(** ** Machine integers and list cells *)

Lemma to_guint_small (z : Z) : 0 <= z < 2 ^ 32 -> to_guint z = z.
Proof. intros H. unfold to_guint. apply Z.mod_small. exact H. Qed.

Lemma to_guint_negative (z : Z) :
  INT_MIN <= z < 0 -> to_guint z = z + 2 ^ 32.
Proof.
  intros H. unfold to_guint, INT_MIN in *.
  rewrite <- (Z_mod_plus_full z 1 (2 ^ 32)).
  apply Z.mod_small. lia.
Qed.

Lemma to_int_small (z : Z) : INT_MIN <= z <= INT_MAX -> to_int z = z.
Proof.
  intros H. unfold to_int, INT_MIN, INT_MAX in *.
  rewrite Z.mod_small by lia. lia.
Qed.

Lemma in_int_range_spec (z : Z) :
  in_int_range z = true <-> INT_MIN <= z <= INT_MAX.
Proof. unfold in_int_range. rewrite andb_true_iff, !Z.leb_le. tauto. Qed.

Lemma g_slist_nth_beyond {A : Type} (l : list A) (n : Z) :
  Z.of_nat (List.length l) <= n -> g_slist_nth l n = None.
Proof.
  revert n. induction l as [|x l IH]; intros n H; simpl in *.
  - reflexivity.
  - destruct (n <=? 0) eqn:E.
    + apply Z.leb_le in E. lia.
    + apply IH. lia.
Qed.

Lemma g_slist_nth_within {A : Type} (l : list A) (n : Z) :
  0 <= n < Z.of_nat (List.length l) -> exists x, g_slist_nth l n = Some x.
Proof.
  revert n. induction l as [|x l IH]; intros n H; simpl in *.
  - lia.
  - destruct (n <=? 0) eqn:E.
    + now exists x.
    + apply Z.leb_gt in E. apply IH. lia.
Qed.


(** ** The annotation converter *)

Section Convert.

Variables (di : srd_decoder_instance) (ann_format : Z)
          (ann : option (list string)) (e : engine).

Lemma convert_not_sequence (obj : pyobj) :
  PyList_Check obj = false -> PyTuple_Check obj = false ->
  convert_pyobj di obj ann_format ann e
  = Done (SRD_ERR_PYTHON, ann_format, ann) e
      [Ev_srd_err (Msg_not_a_list (name (decoder di)) (tp_name obj))].
Proof.
  intros Hl Ht. unfold convert_pyobj. rewrite Hl, Ht. reflexivity.
Qed.

Lemma convert_tuple (items : list pyobj) :
  convert_pyobj di (PyTuple items) ann_format ann e
  = Done (SRD_ERR_PYTHON, ann_format, ann) e
      [Ev_srd_err (Msg_list_size (name (decoder di)) (-1))].
Proof. reflexivity. Qed.

Lemma convert_wrong_size (items : list pyobj) :
  List.length items <> 2%nat ->
  convert_pyobj di (PyList items) ann_format ann e
  = Done (SRD_ERR_PYTHON, ann_format, ann) e
      [Ev_srd_err (Msg_list_size (name (decoder di))
                     (to_int (Z.of_nat (List.length items))))].
Proof.
  intros H. unfold convert_pyobj. cbn [PyList_Check PyList_Size negb andb].
  destruct (Z.of_nat (List.length items) =? 2) eqn:E.
  - apply Z.eqb_eq in E. lia.
  - reflexivity.
Qed.

Lemma convert_first_not_integer (first second : pyobj) :
  PyLong_Check first = false ->
  convert_pyobj di (PyList [first; second]) ann_format ann e
  = Done (SRD_ERR_PYTHON, ann_format, ann) e
      [Ev_srd_err (Msg_first_not_integer (name (decoder di)))].
Proof.
  intros H. unfold convert_pyobj, bind. simpl. rewrite H. reflexivity.
Qed.

Lemma convert_unregistered (id : Z) (second : pyobj) :
  g_slist_nth_data (annotations (decoder di))
    (to_guint (to_int (PyLong_AsLong (PyLong id)))) = None ->
  convert_pyobj di (PyList [PyLong id; second]) ann_format ann e
  = Done (SRD_ERR_PYTHON, ann_format, ann) e
      [Ev_srd_err (Msg_unregistered_format (name (decoder di))
                     (to_int (PyLong_AsLong (PyLong id))))].
Proof.
  intros H. unfold convert_pyobj, bind. simpl. rewrite H. reflexivity.
Qed.

Lemma convert_second_not_list (id : Z) (second : pyobj) (fmt : list string) :
  g_slist_nth_data (annotations (decoder di))
    (to_guint (to_int (PyLong_AsLong (PyLong id)))) = Some fmt ->
  PyList_Check second = false ->
  convert_pyobj di (PyList [PyLong id; second]) ann_format ann e
  = Done (SRD_ERR_PYTHON, to_int (PyLong_AsLong (PyLong id)), ann) e
      [Ev_srd_err (Msg_second_not_list (name (decoder di)))].
Proof.
  intros H Hs. unfold convert_pyobj, bind. simpl. rewrite H. simpl. rewrite ?Hs. reflexivity.
Qed.

Lemma convert_second_malformed (id : Z) (items : list pyobj)
    (fmt : list string) :
  g_slist_nth_data (annotations (decoder di))
    (to_guint (to_int (PyLong_AsLong (PyLong id)))) = Some fmt ->
  strings_of_items items = None ->
  convert_pyobj di (PyList [PyLong id; PyList items]) ann_format ann e
  = Done (SRD_ERR_PYTHON, to_int (PyLong_AsLong (PyLong id)), ann) e
      [Ev_srd_err (Msg_second_malformed (name (decoder di)))].
Proof.
  intros H Hs. unfold convert_pyobj, bind. simpl.
  simpl PyLong_Check. cbv iota beta. simpl negb. cbv iota.
  rewrite H. rewrite Hs. reflexivity.
Qed.

Lemma convert_accepts (id : Z) (items : list pyobj) (fmt strs : list string) :
  g_slist_nth_data (annotations (decoder di))
    (to_guint (to_int (PyLong_AsLong (PyLong id)))) = Some fmt ->
  strings_of_items items = Some strs ->
  convert_pyobj di (PyList [PyLong id; PyList items]) ann_format ann e
  = Done (SRD_OK, to_int (PyLong_AsLong (PyLong id)), Some strs) e [].
Proof.
  intros H Hs. unfold convert_pyobj, bind. simpl.
  simpl PyLong_Check. cbv iota beta. simpl negb. cbv iota.
  rewrite H. rewrite Hs. reflexivity.
Qed.

(** The converter always returns, leaves the engine as it found it, and
    logs exactly when it rejects. *)
Lemma convert_pyobj_returns (obj : pyobj) :
  exists status fmt' ann' t,
    convert_pyobj di obj ann_format ann e = Done (status, fmt', ann') e t
    /\ callback_calls t = [] /\ decode_calls t = []
    /\ (status = SRD_OK -> t = [])
    /\ (status <> SRD_OK -> exists m, t = [Ev_srd_err m]).
Proof.
  assert (Hrej : forall (fmt' : Z) (ann' : option (list string)) m,
    exists status fmt'' ann'' t,
      Done (SRD_ERR_PYTHON, fmt', ann') e [Ev_srd_err m]
      = Done (status, fmt'', ann'') e t
      /\ callback_calls t = [] /\ decode_calls t = []
      /\ (status = SRD_OK -> t = [])
      /\ (status <> SRD_OK -> exists m, t = [Ev_srd_err m])).
  { intros fmt' ann' m. exists SRD_ERR_PYTHON, fmt', ann', [Ev_srd_err m].
    repeat split; try discriminate. intros _. now exists m. }
  destruct obj as [| z | s | s | s | items | items];
    try (rewrite convert_not_sequence by reflexivity; apply Hrej).
  - destruct items as [|first [|second [|third rest]]];
      try (rewrite convert_wrong_size by (simpl; lia); apply Hrej).
    destruct first as [| id | s | s | s | l | l];
      try (rewrite convert_first_not_integer by reflexivity; apply Hrej).
    destruct (g_slist_nth_data (annotations (decoder di))
                (to_guint (to_int (PyLong_AsLong (PyLong id))))) as [fmt|] eqn:Hreg;
      [|rewrite convert_unregistered by exact Hreg; apply Hrej].
    destruct second as [| z | s | s | s | l | l];
      try (rewrite (convert_second_not_list _ _ _ Hreg) by reflexivity;
           apply Hrej).
    destruct (strings_of_items l) as [strs|] eqn:Hstr.
    + rewrite (convert_accepts _ _ _ _ Hreg Hstr).
      exists SRD_OK, (to_int (PyLong_AsLong (PyLong id))), (Some strs), [].
      repeat split; congruence.
    + rewrite (convert_second_malformed _ _ _ Hreg Hstr). apply Hrej.
  - rewrite convert_tuple. apply Hrej.
Qed.

(** What the converter accepts: a list of an integer and a list of strings,
    the integer being looked up after its conversion to [int]. *)
Lemma convert_pyobj_ok_inv (obj : pyobj) (fmt' : Z)
    (ann' : option (list string)) (e' : engine) (t : list event) :
  convert_pyobj di obj ann_format ann e = Done (SRD_OK, fmt', ann') e' t ->
  exists id items reg strs,
    obj = PyList [PyLong id; PyList items]
    /\ g_slist_nth_data (annotations (decoder di))
         (to_guint (to_int (PyLong_AsLong (PyLong id)))) = Some reg
    /\ strings_of_items items = Some strs
    /\ fmt' = to_int (PyLong_AsLong (PyLong id))
    /\ ann' = Some strs.
Proof.
  destruct obj as [| z | s | s | s | items | items];
    try (rewrite convert_not_sequence by reflexivity; discriminate).
  - destruct items as [|first [|second [|third rest]]];
      try (rewrite convert_wrong_size by (simpl; lia); discriminate).
    destruct first as [| id | s | s | s | l | l];
      try (rewrite convert_first_not_integer by reflexivity; discriminate).
    destruct (g_slist_nth_data (annotations (decoder di))
                (to_guint (to_int (PyLong_AsLong (PyLong id)))))
      as [reg|] eqn:Hreg;
      [|rewrite convert_unregistered by exact Hreg; discriminate].
    destruct second as [| z | s | s | s | l | l];
      try (rewrite (convert_second_not_list _ _ _ Hreg) by reflexivity;
           discriminate).
    destruct (strings_of_items l) as [strs|] eqn:Hstr.
    + rewrite (convert_accepts _ _ _ _ Hreg Hstr). intros H.
      injection H as <- <- _ _. exists id, l, reg, strs. auto.
    + rewrite (convert_second_malformed _ _ _ Hreg Hstr). discriminate.
  - rewrite convert_tuple. discriminate.
Qed.

End Convert.

(** X5.  Format ids that differ by a multiple of 2^32 are the same [int]:
    the converter does with the one what it does with the other. *)
Lemma convert_pyobj_modulo (di : srd_decoder_instance) (id k : Z)
    (second : pyobj) (ann_format : Z) (ann : option (list string))
    (e : engine) :
  LONG_MIN <= id <= LONG_MAX ->
  LONG_MIN <= id + k * 2 ^ 32 <= LONG_MAX ->
  convert_pyobj di (PyList [PyLong (id + k * 2 ^ 32); second]) ann_format ann e
  = convert_pyobj di (PyList [PyLong id; second]) ann_format ann e.
Proof.
  intros Hid Hwrapped.
  assert (Hlong : forall z, LONG_MIN <= z <= LONG_MAX ->
                            PyLong_AsLong (PyLong z) = z).
  { intros z [Hlo Hhi]. unfold PyLong_AsLong.
    apply Z.leb_le in Hlo, Hhi. now rewrite Hlo, Hhi. }
  assert (Hint : to_int (PyLong_AsLong (PyLong (id + k * 2 ^ 32)))
                 = to_int (PyLong_AsLong (PyLong id))).
  { rewrite !Hlong by assumption. unfold to_int. f_equal.
    replace (id + k * 2 ^ 32 + 2 ^ 31) with (id + 2 ^ 31 + k * 2 ^ 32) by ring.
    apply Z_mod_plus_full. }
  clear Hwrapped. revert Hint. generalize (id + k * 2 ^ 32). intros w Hint.
  unfold convert_pyobj, bind. simpl. now rewrite Hint.
Qed.

Lemma strings_of_items_unicode (strs : list string) :
  strings_of_items (map PyUnicode strs) = Some strs.
Proof.
  induction strs as [|s strs IH]; simpl.
  - reflexivity.
  - now rewrite IH.
Qed.

Lemma registered_format_found (d : srd_decoder) (id : Z) :
  0 <= id < Z.of_nat (List.length (annotations d)) -> id <= INT_MAX ->
  exists fmt,
    g_slist_nth_data (annotations d)
      (to_guint (to_int (PyLong_AsLong (PyLong id)))) = Some fmt
    /\ to_int (PyLong_AsLong (PyLong id)) = id.
Proof.
  intros Hid Hmax.
  assert (Hlong : PyLong_AsLong (PyLong id) = id).
  { unfold PyLong_AsLong, LONG_MIN, LONG_MAX, INT_MAX in *.
    destruct (- 2 ^ 63 <=? id) eqn:E1; destruct (id <=? 2 ^ 63 - 1) eqn:E2;
      try reflexivity;
      rewrite ?Z.leb_gt in *; lia. }
  rewrite Hlong, to_int_small by (unfold INT_MIN; lia).
  rewrite to_guint_small by (unfold INT_MAX in Hmax; lia).
  destruct (g_slist_nth_within (annotations d) id Hid) as [fmt Hfmt].
  exists fmt. split; [exact Hfmt | reflexivity].
Qed.

Lemma g_slist_nth_nth_error {A : Type} (l : list A) (n : Z) :
  0 <= n -> g_slist_nth l n = nth_error l (Z.to_nat n).
Proof.
  revert n. induction l as [|x l IH]; intros n Hn; simpl.
  - now destruct (Z.to_nat n).
  - destruct (n <=? 0) eqn:E.
    + apply Z.leb_le in E. replace n with 0 by lia. reflexivity.
    + apply Z.leb_gt in E. rewrite IH by lia.
      replace (Z.to_nat n) with (S (Z.to_nat (n - 1))) by lia. reflexivity.
Qed.

Lemma resolves_cell (di : srd_decoder_instance) (h : Z) (pdo : srd_pd_output) :
  resolves di h pdo ->
  g_slist_nth (pd_output di) (to_guint h) = Some pdo.
Proof.
  intros [Hh Hnth]. unfold INT_MAX in Hh.
  rewrite to_guint_small by lia.
  rewrite g_slist_nth_nth_error by lia. exact Hnth.
Qed.

Lemma parse_put_args (s en h : Z) (payload : pyobj) :
  INT_MIN <= h <= INT_MAX ->
  PyArg_ParseTuple_KKiO (put_args s en h payload)
  = Some (to_uint64 s, to_uint64 en, h, payload).
Proof.
  intros H. unfold put_args, PyArg_ParseTuple_KKiO.
  apply in_int_range_spec in H. now rewrite H.
Qed.

Lemma to_uint64_small (z : Z) : 0 <= z < 2 ^ 64 -> to_uint64 z = z.
Proof. intros H. unfold to_uint64. now apply Z.mod_small. Qed.

(** ** The monad, pointwise *)

Lemma bind_ret {A B : Type} (a : A) (f : A -> M B) (e : engine) :
  bind (ret a) f e = f a e.
Proof. unfold bind, ret. now destruct (f a e). Qed.

Lemma bind_the_engine {B : Type} (f : engine -> M B) (e : engine) :
  bind the_engine f e = f e e.
Proof. unfold bind, the_engine. now destruct (f e e). Qed.

Lemma bind_g_try_malloc0 {B : Type} (f : bool -> M B) (e : engine) :
  bind g_try_malloc0 f e = f (mem_available e) e.
Proof. unfold bind, g_try_malloc0. now destruct (f (mem_available e) e). Qed.

Lemma bind_done {A B : Type} (m : M A) (f : A -> M B) (e e1 : engine)
    (a : A) (t1 : list event) :
  m e = Done a e1 t1 ->
  bind m f e = match f a e1 with
               | Done b e2 t2 => Done b e2 (t1 ++ t2)
               | Fault => Fault
               end.
Proof. intros H. unfold bind. now rewrite H. Qed.

(** ** Dispatch *)

Section Dispatch.

Variable decode :
  srd_decoder_instance -> Z -> Z -> pyobj -> engine -> option pyobj * engine.
Variable cb_call : N -> srd_proto_data -> engine -> engine.

(** A handle that finds no cell of the list: the failure is logged and the
    call returns [NULL]. *)
Lemma put_unresolved (e : engine) (self : N) (args : pyobj)
    (di : srd_decoder_instance) (s en h : Z) (d : pyobj) :
  get_di_by_decobject e self = Some di ->
  PyArg_ParseTuple_KKiO args = Some (s, en, h, d) ->
  g_slist_nth (pd_output di) (to_guint h) = None ->
  Decoder_put decode cb_call self args e
  = Done None e [Ev_srd_err (Msg_invalid_output_id (name (decoder di)) h)].
Proof.
  intros Hdi Hargs Hnth.
  cbv [Decoder_put bind the_engine]. rewrite Hdi, Hargs, Hnth.
  reflexivity.
Qed.

(** Past the resolution of the handle and the allocation of the data
    unit, the call is the [switch] on the output type followed by
    [Py_RETURN_NONE]. *)
Lemma put_resolved (e : engine) (self : N) (di : srd_decoder_instance)
    (s en h : Z) (payload : pyobj) (pdo : srd_pd_output) :
  get_di_by_decobject e self = Some di ->
  resolves di h pdo ->
  mem_available e = true ->
  Decoder_put decode cb_call self (put_args s en h payload) e
  = ((if output_type pdo =? SRD_OUTPUT_ANN then
        match srd_find_callback e (output_type pdo) with
        | Some cb =>
            r <- convert_pyobj di payload 0 None ;;
            let '(status, ann_format', data') := r in
            if negb (srd_status_eqb status SRD_OK) then ret tt
            else run_callback cb_call cb
                   {| start_sample := to_uint64 s;
                      end_sample := to_uint64 en; pdo := pdo;
                      ann_format := ann_format'; data := data' |}
        | None => ret tt
        end
      else if output_type pdo =? SRD_OUTPUT_PROTO then
        call_next_di decode (next_di di) (to_uint64 s) (to_uint64 en) payload
      else if output_type pdo =? SRD_OUTPUT_BINARY then
        srd_err Msg_binary_not_supported
      else
        srd_err (Msg_invalid_output_type (name (decoder di))
                   (output_type pdo))) ;;
     ret (Some Py_None)) e.
Proof.
  intros Hdi Hres Hmem.
  assert (Hint : INT_MIN <= h <= INT_MAX)
    by (destruct Hres as [Hh _]; unfold INT_MIN; lia).
  unfold Decoder_put. rewrite bind_the_engine.
  rewrite Hdi, (parse_put_args s en h payload Hint), (resolves_cell _ _ _ Hres).
  rewrite bind_g_try_malloc0, Hmem. cbn [negb].
  destruct (output_type pdo =? SRD_OUTPUT_ANN); [|reflexivity].
  unfold bind at 1. rewrite bind_the_engine. reflexivity.
Qed.

(** The loop over the successors always finishes, and it is the fan-out of
    the design; so it calls [decode] once per successor, in the order of
    the list and with the arguments it was given, it calls no callback and
    logs no diagnostic of its own, and it reports every successor whose
    [decode] raises. *)
Lemma call_next_di_runs (l : list srd_decoder_instance) (s en : Z)
    (d : pyobj) (e : engine) :
  exists e' t,
    call_next_di decode l s en d e = Done tt e' t
    /\ fan_out decode s en d l e e' t.
Proof.
  revert e. induction l as [|next l IH]; intros e.
  - exists e, []. split; [reflexivity | constructor].
  - simpl call_next_di. unfold bind at 1, run_decode.
    destruct (decode next s en d e) as [py_res e1] eqn:Hcall.
    destruct (IH e1) as (e' & t & Hrun & Hfan).
    destruct py_res as [res|].
    + rewrite bind_ret, Hrun. eexists _, _. split; [reflexivity|].
      simpl. eapply fan_out_returned; eassumption.
    + unfold bind at 1, catch_exception, emit. rewrite Hrun.
      eexists _, _. split; [reflexivity|].
      simpl. eapply fan_out_failed; eassumption.
Qed.

Lemma fan_out_decode_calls (l : list srd_decoder_instance) (s en : Z)
    (d : pyobj) (e e' : engine) (t : list event) :
  fan_out decode s en d l e e' t ->
  decode_calls t = map (fun next => (next, s, en, d)) l.
Proof.
  induction 1 as [e | next l e e1 e' res t _ _ IH | next l e e1 e' t _ _ IH];
    simpl; congruence.
Qed.

Lemma fan_out_callback_calls (l : list srd_decoder_instance) (s en : Z)
    (d : pyobj) (e e' : engine) (t : list event) :
  fan_out decode s en d l e e' t -> callback_calls t = [].
Proof. induction 1; simpl; assumption || reflexivity. Qed.

Lemma fan_out_diagnostics (l : list srd_decoder_instance) (s en : Z)
    (d : pyobj) (e e' : engine) (t : list event) :
  fan_out decode s en d l e e' t -> diagnostics t = [].
Proof. induction 1; simpl; assumption || reflexivity. Qed.

Lemma fan_out_reports_failure (l : list srd_decoder_instance) (s en : Z)
    (d : pyobj) (e e' : engine) (t : list event) (next : srd_decoder_instance) :
  fan_out decode s en d l e e' t ->
  In next l ->
  (forall e1, fst (decode next s en d e1) = None) ->
  In (Ev_catch_exception (decode_failure_prefix next)) t.
Proof.
  intros Hfan Hin Hfails.
  induction Hfan as [e | n l e e1 e' res t Hcall _ IH | n l e e1 e' t Hcall _ IH].
  - destruct Hin.
  - destruct Hin as [<-|Hin].
    + specialize (Hfails e). rewrite Hcall in Hfails. discriminate.
    + right. now apply IH.
  - destruct Hin as [<-|Hin].
    + right. now left.
    + right. right. now apply IH.
Qed.

(** C7.  An annotation emitted while no callback is registered for the
    annotation output kind has no effect at all: [put] returns [None] to
    its caller, the engine is the one it was called in, and nothing is
    logged or called; the payload is not looked at, so that the call has
    this outcome with any payload, malformed ones included. *)
Theorem put_annotation_without_callback (e : engine) (self : N)
    (di : srd_decoder_instance) (s en h : Z) (payload : pyobj)
    (pdo : srd_pd_output) :
  get_di_by_decobject e self = Some di ->
  resolves di h pdo ->
  output_type pdo = SRD_OUTPUT_ANN ->
  srd_find_callback e SRD_OUTPUT_ANN = None ->
  mem_available e = true ->
  Decoder_put decode cb_call self (put_args s en h payload) e = Done (Some Py_None) e [].
Proof.
  intros Hdi Hres Hty Hcb Hmem.
  rewrite (put_resolved e self di s en h payload pdo Hdi Hres Hmem).
  rewrite Hty, Hcb. reflexivity.
Qed.

(** C8.  A [put] on a binary output stream logs that binary output is not
    supported and drops the emission: no callback and no successor is
    called, the engine is unchanged, the call does not fault, and it
    returns [None] to its caller as a successful call does. *)
Theorem put_binary_not_supported (e : engine) (self : N)
    (di : srd_decoder_instance) (s en h : Z) (payload : pyobj)
    (pdo : srd_pd_output) :
  get_di_by_decobject e self = Some di ->
  resolves di h pdo ->
  output_type pdo = SRD_OUTPUT_BINARY ->
  mem_available e = true ->
  Decoder_put decode cb_call self (put_args s en h payload) e
  = Done (Some Py_None) e [Ev_srd_err Msg_binary_not_supported].
Proof.
  intros Hdi Hres Hty Hmem.
  rewrite (put_resolved e self di s en h payload pdo Hdi Hres Hmem).
  rewrite Hty. reflexivity.
Qed.

(** C3.  A [put] on a protocol output stream is the fan-out of the design
    over the successors of the instance: it calls the [decode] of every
    successor exactly once, in the order of [next_di], each with the same
    start sample, end sample and payload, and calls no callback; a call of
    [decode] that fails is caught and reported through [catch_exception]
    with the instance id of the successor, and the successors after it are
    called all the same; [put] then returns [None]. *)
Theorem put_protocol_calls_every_successor (e : engine) (self : N)
    (di : srd_decoder_instance) (s en h : Z) (payload : pyobj)
    (pdo : srd_pd_output) :
  get_di_by_decobject e self = Some di ->
  resolves di h pdo ->
  output_type pdo = SRD_OUTPUT_PROTO ->
  mem_available e = true ->
  exists e' t,
    Decoder_put decode cb_call self (put_args s en h payload) e
    = Done (Some Py_None) e' t
    /\ fan_out decode (to_uint64 s) (to_uint64 en) payload (next_di di) e e' t
    /\ decode_calls t
       = map (fun next => (next, to_uint64 s, to_uint64 en, payload))
           (next_di di)
    /\ callback_calls t = []
    /\ (forall next, In next (next_di di) ->
          (forall e1,
             fst (decode next (to_uint64 s) (to_uint64 en) payload e1) = None) ->
          In (Ev_catch_exception (decode_failure_prefix next)) t).
Proof.
  intros Hdi Hres Hty Hmem.
  rewrite (put_resolved e self di s en h payload pdo Hdi Hres Hmem).
  rewrite Hty. change (SRD_OUTPUT_PROTO =? SRD_OUTPUT_ANN) with false.
  change (SRD_OUTPUT_PROTO =? SRD_OUTPUT_PROTO) with true. cbv iota.
  destruct (call_next_di_runs (next_di di) (to_uint64 s) (to_uint64 en)
              payload e) as (e' & t & Hrun & Hfan).
  exists e', t. rewrite (bind_done _ _ _ _ _ _ Hrun). unfold ret.
  rewrite app_nil_r. split; [reflexivity|]. split; [exact Hfan|].
  split; [exact (fan_out_decode_calls _ _ _ _ _ _ _ Hfan)|].
  split; [exact (fan_out_callback_calls _ _ _ _ _ _ _ Hfan)|].
  intros next. exact (fan_out_reports_failure _ _ _ _ _ _ _ next Hfan).
Qed.

(** C5.  For a format id that indexes a registered annotation format of
    the decoder and any strings [s1 .. sn], the converter accepts the list
    [[format_id, [s1, ..., sn]]] and returns that format id and those
    strings, in their order and number; and a [put] of this payload on an
    annotation stream, with a callback registered for annotations, calls
    that callback once, with the data unit that carries the given start
    and end samples, the descriptor, the format id and the strings. *)
Theorem annotation_reaches_callback (di : srd_decoder_instance)
    (format_id : Z) (strs : list string) :
  registered_format (decoder di) format_id ->
  format_id <= INT_MAX ->
  (forall ann_format ann e,
     convert_pyobj di (annotation_payload format_id strs) ann_format ann e
     = Done (SRD_OK, format_id, Some strs) e [])
  /\ (forall e self s en h pdo cb,
        get_di_by_decobject e self = Some di ->
        0 <= s < 2 ^ 64 -> 0 <= en < 2 ^ 64 ->
        resolves di h pdo ->
        output_type pdo = SRD_OUTPUT_ANN ->
        srd_find_callback e SRD_OUTPUT_ANN = Some cb ->
        mem_available e = true ->
        let pdata := {| start_sample := s; end_sample := en; pdo := pdo;
                        ann_format := format_id; data := Some strs |} in
        Decoder_put decode cb_call self
          (put_args s en h (annotation_payload format_id strs)) e
        = Done (Some Py_None) (cb_call cb pdata e) [Ev_callback cb pdata]).
Proof.
  intros Hreg Hmax.
  destruct (registered_format_found _ _ Hreg Hmax) as (fmt & Hfmt & Hid).
  assert (Hconv : forall ann_format ann e,
    convert_pyobj di (annotation_payload format_id strs) ann_format ann e
    = Done (SRD_OK, format_id, Some strs) e []).
  { intros ann_format ann e. unfold annotation_payload.
    rewrite (convert_accepts di ann_format ann e format_id _ fmt strs Hfmt
               (strings_of_items_unicode strs)).
    now rewrite Hid. }
  split; [exact Hconv|].
  intros e self s en h pdo cb Hdi Hs Hen Hres Hty Hcb Hmem pdata.
  subst pdata.
  rewrite (put_resolved e self di s en h _ pdo Hdi Hres Hmem).
  rewrite Hty, Hcb. change (SRD_OUTPUT_ANN =? SRD_OUTPUT_ANN) with true.
  cbv iota. unfold bind at 1. rewrite (bind_done _ _ _ _ _ _ (Hconv 0 None e)).
  rewrite (to_uint64_small s Hs), (to_uint64_small en Hen). reflexivity.
Qed.

(** C6.  A [put] with a handle at or beyond the number of output streams
    of the instance fails: it returns [NULL], calls no callback and no
    successor, and leaves the engine unchanged; for a handle that is an
    [int] it logs the invalid output id. *)
Theorem put_handle_beyond_streams (e : engine) (self : N)
    (di : srd_decoder_instance) (s en h : Z) (payload : pyobj) :
  get_di_by_decobject e self = Some di ->
  Z.of_nat (List.length (pd_output di)) <= h ->
  exists t,
    Decoder_put decode cb_call self (put_args s en h payload) e = Done None e t
    /\ callback_calls t = []
    /\ decode_calls t = []
    /\ (h <= INT_MAX ->
        t = [Ev_srd_err (Msg_invalid_output_id (name (decoder di)) h)]).
Proof.
  intros Hdi Hlen.
  destruct (in_int_range h) eqn:Hint.
  - apply in_int_range_spec in Hint.
    exists [Ev_srd_err (Msg_invalid_output_id (name (decoder di)) h)].
    repeat split.
    apply (put_unresolved e self _ di _ _ h _ Hdi (parse_put_args s en h payload Hint)).
    apply g_slist_nth_beyond.
    rewrite to_guint_small; [exact Hlen|]. unfold INT_MAX in Hint. lia.
  - exists []. repeat split.
    + unfold Decoder_put. rewrite bind_the_engine, Hdi.
      unfold put_args, PyArg_ParseTuple_KKiO. rewrite Hint. reflexivity.
    + intros Hmax. exfalso.
      assert (in_int_range h = true); [|congruence].
      apply in_int_range_spec. unfold INT_MIN. lia.
Qed.

(** C1, as the code has it.  A [put] with a handle that is out of range,
    negative or at or beyond the number of output streams, logs the
    invalid output id and drops the emission: nothing is called and the
    engine is unchanged.  The call returns [NULL] to its caller, which is
    how a method reports a failure, and not [None]. *)
Theorem put_invalid_handle_returns_null (e : engine) (self : N)
    (di : srd_decoder_instance) (s en h : Z) (payload : pyobj) :
  get_di_by_decobject e self = Some di ->
  INT_MIN <= h <= INT_MAX ->
  Z.of_nat (List.length (pd_output di)) <= 2 ^ 31 ->
  h < 0 \/ Z.of_nat (List.length (pd_output di)) <= h ->
  Decoder_put decode cb_call self (put_args s en h payload) e
  = Done None e [Ev_srd_err (Msg_invalid_output_id (name (decoder di)) h)]
  /\ ~ returns_normally (Decoder_put decode cb_call self (put_args s en h payload) e).
Proof.
  intros Hdi Hint Hlen Hrange.
  assert (Hput : Decoder_put decode cb_call self (put_args s en h payload) e
    = Done None e [Ev_srd_err (Msg_invalid_output_id (name (decoder di)) h)]).
  { apply (put_unresolved e self _ di _ _ h _ Hdi (parse_put_args s en h payload Hint)).
    apply g_slist_nth_beyond. destruct Hrange as [Hneg|Hbig].
    - rewrite to_guint_negative by lia. unfold INT_MIN in Hint. lia.
    - rewrite to_guint_small; [exact Hbig|]. unfold INT_MAX in Hint. lia. }
  split; [exact Hput|].
  rewrite Hput. intros (v & e' & t & H). discriminate.
Qed.

(** The loop over the successors changes the engine only through the
    calls of [decode]. *)
Lemma call_next_di_invariant (P : engine -> Prop) :
  (forall next s en d e, P e -> P (snd (decode next s en d e))) ->
  forall l s en d e, P e ->
  exists e' t, call_next_di decode l s en d e = Done tt e' t /\ P e'.
Proof.
  intros Hdecode l s en d. induction l as [|next l IH]; intros e HP.
  - exists e, []. now split.
  - simpl call_next_di. unfold bind at 1, run_decode.
    specialize (Hdecode next s en d e HP).
    destruct (decode next s en d e) as [py_res e1]. simpl in Hdecode.
    destruct (IH e1 Hdecode) as (e' & t & Hrun & HP').
    destruct py_res as [res|].
    + rewrite bind_ret, Hrun. eauto.
    + unfold bind at 1, catch_exception, emit. rewrite Hrun. eauto.
Qed.

(** C10.  Whatever its arguments and whichever branch it takes, [put]
    returns, and the output streams and the successors that the engine
    holds for the emitting instance are then the ones it held at the call,
    the calls out of [put] (the annotation callback and the successors'
    [decode]) being the only ones that touch the engine. *)
Theorem put_keeps_streams_and_successors (self : N) :
  (forall next s en d e,
     streams_and_successors (snd (decode next s en d e)) self
     = streams_and_successors e self) ->
  (forall cb pdata e,
     streams_and_successors (cb_call cb pdata e) self
     = streams_and_successors e self) ->
  forall args e,
  exists r e' t,
    Decoder_put decode cb_call self args e = Done r e' t
    /\ streams_and_successors e' self = streams_and_successors e self.
Proof.
  intros Hdecode Hcb args e.
  unfold Decoder_put. rewrite bind_the_engine.
  destruct (get_di_by_decobject e self) as [di|]; [|unfold ret; eauto].
  destruct (PyArg_ParseTuple_KKiO args) as [[[[s en] h] d]|];
    [|unfold ret; eauto].
  destruct (g_slist_nth (pd_output di) (to_guint h)) as [pdo|];
    [|cbv [bind srd_err emit ret]; eauto].
  rewrite bind_g_try_malloc0.
  destruct (mem_available e); cbn [negb]; [|unfold ret; eauto].
  destruct (output_type pdo =? SRD_OUTPUT_ANN).
  { unfold bind at 1. rewrite bind_the_engine.
    destruct (srd_find_callback e (output_type pdo)) as [cb|];
      [|cbv [bind ret]; eauto].
    destruct (convert_pyobj_returns di 0 None e d)
      as (status & fmt & ann & t & Hconv & _).
    unfold ann_of_data. cbn [ann_format data].
    rewrite (bind_done _ _ _ _ _ _ Hconv).
    destruct status; cbv [srd_status_eqb negb run_callback ret];
      eauto 6. }
  destruct (output_type pdo =? SRD_OUTPUT_PROTO).
  { destruct (call_next_di_invariant
                (fun e' => streams_and_successors e' self
                           = streams_and_successors e self))
      with (l := next_di di) (s := s) (en := en) (d := d) (e := e)
      as (e' & t & Hrun & Hsame).
    - intros next s' en' d' e1 H1. now rewrite Hdecode.
    - reflexivity.
    - rewrite (bind_done _ _ _ _ _ _ Hrun). unfold ret. eauto. }
  destruct (output_type pdo =? SRD_OUTPUT_BINARY);
    cbv [bind srd_err emit ret]; eauto.
Qed.

End Dispatch.

(** ** Registration *)

Section Add.

Variable pd_add :
  srd_decoder_instance -> Z -> string -> engine -> Z * engine.

(** C9.  With well-formed arguments, [add] gives the call to the output
    registry: when the registry returns a handle, [add] returns it as an
    integer object; when the registry returns a negative value, [add]
    returns [None], an ordinary result, and raises or logs nothing. *)
Theorem add_returns_handle_or_none (e e' : engine) (self : N)
    (di : srd_decoder_instance) (output_type : Z) (proto_id : string)
    (pdo_id : Z) :
  get_di_by_decobject e self = Some di ->
  INT_MIN <= output_type <= INT_MAX ->
  has_nul proto_id = false ->
  pd_add di output_type proto_id e = (pdo_id, e') ->
  (0 <= pdo_id ->
     Decoder_add pd_add self (add_args output_type proto_id) e
     = Done (Some (PyLong pdo_id)) e' [])
  /\ (pdo_id < 0 ->
        Decoder_add pd_add self (add_args output_type proto_id) e
        = Done (Some Py_None) e' []).
Proof.
  intros Hdi Hty Hnul Hadd.
  assert (Hrun : Decoder_add pd_add self (add_args output_type proto_id) e
    = Done (if pdo_id <? 0 then Some Py_None
            else Some (Py_BuildValue_i pdo_id)) e' []).
  { unfold Decoder_add. rewrite bind_the_engine, Hdi.
    unfold add_args, PyArg_ParseTuple_is.
    apply in_int_range_spec in Hty. rewrite Hty, Hnul. cbn [negb andb].
    unfold bind, run_pd_add. rewrite Hadd.
    destruct (pdo_id <? 0); reflexivity. }
  split; intros H; rewrite Hrun.
  - apply Z.ltb_ge in H. now rewrite H.
  - apply Z.ltb_lt in H. now rewrite H.
Qed.

End Add.

(** ** The code on the small engine *)

Module Runs.

Import Sample.
Local Open Scope string_scope.

(** A handle of the samples is the position of its descriptor. *)
Ltac handle_resolves := split; [unfold INT_MAX; lia | reflexivity].

(** C2.  The converter does not treat a tuple as it treats the equivalent
    list: with format 0 registered, the list [[0, ["1"]]] is converted, and
    the tuple [(0, ["1"])] passes the check of the container type and is
    then rejected by the check of the size, [PyList_Size] being -1 for it. *)
Theorem convert_rejects_the_tuple :
  registered_format uart 0
  /\ convert_pyobj di_a (annotation_payload 0 ["1"]) 0 None with_callback
     = Done (SRD_OK, 0, Some ["1"]) with_callback []
  /\ convert_pyobj di_a (annotation_tuple 0 ["1"]) 0 None with_callback
     = Done (SRD_ERR_PYTHON, 0, None) with_callback
         [Ev_srd_err (Msg_list_size "uart" (-1))].
Proof.
  split; [|split].
  - unfold registered_format. simpl. lia.
  - reflexivity.
  - apply convert_tuple.
Qed.

(** C4.  A first element outside the registered format ids is not always
    rejected: with formats 0 and 1 registered, the converter takes the id
    4294967296 of the payload [[4294967296, ["x"]]] for the format 0, the
    value being reduced to an [int] before the lookup, and returns [SRD_OK]
    with the format id 0 and the strings, logging nothing. *)
Theorem convert_accepts_wrapped_format_id :
  ~ registered_format uart 4294967296
  /\ convert_pyobj di_a (annotation_payload 4294967296 ["x"]) 0 None
       with_callback
     = Done (SRD_OK, 0, Some ["x"]) with_callback [].
Proof.
  split.
  - unfold registered_format. simpl. lia.
  - reflexivity.
Qed.

(** The same payload in a [put]: the callback is called with format 0. *)
Example put_wrapped_format_id :
  callback_calls
    match put 1 (put_args 100 110 0 (annotation_payload 4294967296 ["x"]))
            with_callback with
    | Done _ _ t => t
    | Fault => []
    end
  = [(64%N, {| start_sample := 100; end_sample := 110; pdo := out_ann;
               ann_format := 0; data := Some ["x"] |})].
Proof. reflexivity. Qed.

(** C1, counterexample.  The handle 4 is out of range for the four output
    streams of the instance, and the [put] with it does not return normally:
    the failure reaches the caller of [put]. *)
Lemma put_invalid_handle_is_a_failed_call :
  Z.of_nat (List.length (pd_output di_a)) <= 4
  /\ ~ returns_normally
         (put 1 (put_args 100 110 4 (PyLong 7)) with_callback).
Proof.
  split.
  - simpl. lia.
  - intros (v & e & t & H). vm_compute in H. discriminate H.
Qed.

(** Scenario of the spec: only the formats 0 and 1 are registered and the
    payload names the format 5; the converter reports the unregistered
    format and no callback is called. *)
Example put_unregistered_format :
  put 1 (put_args 100 110 0 (annotation_payload 5 ["x"])) with_callback
  = Done (Some Py_None) with_callback
      [Ev_srd_err (Msg_unregistered_format "uart" 5)].
Proof. reflexivity. Qed.

(** A descriptor whose output type is none of the three known ones. *)
Example put_unknown_output_type :
  put 1 (put_args 100 110 3 (PyLong 7)) with_callback
  = Done (Some Py_None) with_callback
      [Ev_srd_err (Msg_invalid_output_type "uart" 7)].
Proof. reflexivity. Qed.

(** The data unit cannot be allocated: the call fails before the switch. *)
Example put_out_of_memory :
  put 1 (put_args 100 110 0 (annotation_payload 0 ["1"])) out_of_memory
  = Done None out_of_memory [].
Proof. reflexivity. Qed.

(** The registry declines: [add] returns [None]. *)
Example add_declined :
  add 1 (add_args SRD_OUTPUT_PROTO "uart") out_of_memory
  = Done (Some Py_None) out_of_memory [].
Proof. reflexivity. Qed.

Lemma put_annotation_without_callback_witness :
  put 1 (put_args 100 110 0 (PyLong 7)) without_callback
  = Done (Some Py_None) without_callback [].
Proof.
  apply (put_annotation_without_callback decode host_callback
           without_callback 1 di_a 100 110 0 (PyLong 7) out_ann).
  - reflexivity.
  - handle_resolves.
  - reflexivity.
  - reflexivity.
  - reflexivity.
Defined.

Lemma put_binary_not_supported_witness :
  put 1 (put_args 100 110 2 (PyLong 7)) with_callback
  = Done (Some Py_None) with_callback [Ev_srd_err Msg_binary_not_supported].
Proof.
  apply (put_binary_not_supported decode host_callback with_callback 1 di_a
           100 110 2 (PyLong 7) out_binary).
  - reflexivity.
  - handle_resolves.
  - reflexivity.
  - reflexivity.
Defined.

Lemma put_protocol_calls_every_successor_witness :
  exists e' t,
    put 1 (put_args 100 110 1 (PyLong 7)) with_callback
    = Done (Some Py_None) e' t
    /\ fan_out decode 100 110 (PyLong 7) [di_b; di_c] with_callback e' t
    /\ decode_calls t
       = [(di_b, 100, 110, PyLong 7); (di_c, 100, 110, PyLong 7)]
    /\ callback_calls t = []
    /\ (forall next, In next [di_b; di_c] ->
          (forall e1, fst (decode next 100 110 (PyLong 7) e1) = None) ->
          In (Ev_catch_exception (decode_failure_prefix next)) t).
Proof.
  apply (put_protocol_calls_every_successor decode host_callback
           with_callback 1 di_a 100 110 1 (PyLong 7) out_proto).
  - reflexivity.
  - handle_resolves.
  - reflexivity.
  - reflexivity.
Defined.

Lemma annotation_reaches_callback_witness :
  convert_pyobj di_a (annotation_payload 0 ["1"]) 0 None with_callback
  = Done (SRD_OK, 0, Some ["1"]) with_callback []
  /\ put 1 (put_args 100 110 0 (annotation_payload 0 ["1"])) with_callback
     = Done (Some Py_None) with_callback
         [Ev_callback 64
            {| start_sample := 100; end_sample := 110; pdo := out_ann;
               ann_format := 0; data := Some ["1"] |}].
Proof.
  destruct (annotation_reaches_callback decode host_callback di_a 0 ["1"])
    as [Hconvert Hput].
  - unfold registered_format. simpl. lia.
  - unfold INT_MAX. lia.
  - split.
    + apply Hconvert.
    + apply (Hput with_callback 1%N 100 110 0 out_ann 64%N).
      * reflexivity.
      * lia.
      * lia.
      * handle_resolves.
      * reflexivity.
      * reflexivity.
      * reflexivity.
Defined.

Lemma put_handle_beyond_streams_witness :
  exists t,
    put 1 (put_args 100 110 4 (PyLong 7)) with_callback
    = Done None with_callback t
    /\ callback_calls t = []
    /\ decode_calls t = []
    /\ (4 <= INT_MAX -> t = [Ev_srd_err (Msg_invalid_output_id "uart" 4)]).
Proof.
  apply (put_handle_beyond_streams decode host_callback with_callback 1 di_a
           100 110 4 (PyLong 7)).
  - reflexivity.
  - simpl. lia.
Defined.

Lemma put_invalid_handle_returns_null_witness :
  put 1 (put_args 100 110 (-1) (PyLong 7)) with_callback
  = Done None with_callback [Ev_srd_err (Msg_invalid_output_id "uart" (-1))]
  /\ ~ returns_normally
         (put 1 (put_args 100 110 (-1) (PyLong 7)) with_callback).
Proof.
  apply (put_invalid_handle_returns_null decode host_callback with_callback 1
           di_a 100 110 (-1) (PyLong 7)).
  - reflexivity.
  - unfold INT_MIN, INT_MAX. lia.
  - simpl. lia.
  - left. lia.
Defined.

Lemma put_keeps_streams_and_successors_witness :
  exists r e' t,
    put 1 (put_args 100 110 1 (PyLong 7)) with_callback = Done r e' t
    /\ streams_and_successors e' 1 = streams_and_successors with_callback 1.
Proof.
  apply (put_keeps_streams_and_successors decode host_callback 1).
  - intros next s en d e. reflexivity.
  - intros cb pdata e. reflexivity.
Defined.

Lemma add_returns_handle_or_none_witness :
  (0 <= 4 ->
     add 1 (add_args SRD_OUTPUT_PROTO "uart") with_callback
     = Done (Some (PyLong 4))
         (snd (registry di_a SRD_OUTPUT_PROTO "uart" with_callback)) [])
  /\ (4 < 0 ->
        add 1 (add_args SRD_OUTPUT_PROTO "uart") with_callback
        = Done (Some Py_None)
            (snd (registry di_a SRD_OUTPUT_PROTO "uart" with_callback)) []).
Proof.
  apply (add_returns_handle_or_none registry with_callback
           (snd (registry di_a SRD_OUTPUT_PROTO "uart" with_callback)) 1 di_a
           SRD_OUTPUT_PROTO "uart" 4).
  - reflexivity.
  - unfold INT_MIN, INT_MAX, SRD_OUTPUT_PROTO. lia.
  - reflexivity.
  - reflexivity.
Defined.

End Runs.

(** * Further properties of the code *)

(** ** The converter, check by check *)

Lemma to_guint_range (z : Z) : 0 <= to_guint z < 2 ^ 32.
Proof. unfold to_guint. apply Z.mod_pos_bound. lia. Qed.

Lemma indexes_format_found (d : srd_decoder) (ann_id : Z) :
  indexes_format d ann_id ->
  exists reg, g_slist_nth_data (annotations d) (to_guint ann_id) = Some reg.
Proof.
  intros H. apply g_slist_nth_within.
  split; [apply to_guint_range | exact H].
Qed.

Lemma not_indexes_format_missing (d : srd_decoder) (ann_id : Z) :
  ~ indexes_format d ann_id ->
  g_slist_nth_data (annotations d) (to_guint ann_id) = None.
Proof.
  intros H. apply g_slist_nth_beyond. unfold indexes_format in H. lia.
Qed.

Lemma py_strlist_to_char_ok (items : list pyobj)
    (a a' : option (list string)) :
  py_strlist_to_char (PyList items) a = (SRD_OK, a') ->
  exists strs, strings_of_items items = Some strs /\ a' = Some strs.
Proof.
  unfold py_strlist_to_char.
  destruct (strings_of_items items) as [strs|]; intros H.
  - injection H as <-. now exists strs.
  - discriminate.
Qed.

Lemma py_strlist_to_char_status (py_strlist : pyobj)
    (a b : option (list string)) :
  fst (py_strlist_to_char py_strlist a) = fst (py_strlist_to_char py_strlist b).
Proof.
  unfold py_strlist_to_char. destruct py_strlist; try reflexivity.
  now destruct (strings_of_items items).
Qed.

(** The converter returns, with the engine it was called in, and what it
    returns and logs is an outcome of the six checks. *)
Lemma convert_pyobj_validation (di : srd_decoder_instance) (obj : pyobj)
    (f : Z) (a : option (list string)) (e : engine) :
  exists r t,
    convert_pyobj di obj f a e = Done r e t /\ validation di f a obj r t.
Proof.
  destruct obj as [| z | s | s | s | items | items];
    try (eexists _, _; split;
         [apply convert_not_sequence; reflexivity
         | now apply not_a_sequence]).
  - destruct items as [|first [|second [|third rest]]];
      try (eexists _, _; split;
           [apply convert_wrong_size; simpl; lia
           | apply not_two_elements; simpl; lia]).
    destruct first as [| id | s | s | s | l | l];
      try (eexists _, _; split;
           [apply convert_first_not_integer; reflexivity
           | now apply first_not_an_integer]).
    destruct (Z_lt_le_dec (to_guint (ann_id_of id))
                (Z.of_nat (List.length (annotations (decoder di)))))
      as [Hin|Hout].
    + destruct (indexes_format_found (decoder di) (ann_id_of id) Hin)
        as [reg Hreg].
      destruct second as [| z | s | s | s | l | l];
        try (eexists _, _; split;
             [apply (convert_second_not_list di f a e id _ reg Hreg);
              reflexivity
             | now apply second_not_a_list]).
      destruct (strings_of_items l) as [strs|] eqn:Hstr.
      * eexists _, _. split.
        -- apply (convert_accepts di f a e id l reg strs Hreg Hstr).
        -- apply converted; [exact Hin|].
           unfold py_strlist_to_char. now rewrite Hstr.
      * eexists _, _. split.
        -- apply (convert_second_malformed di f a e id l reg Hreg Hstr).
        -- apply (strings_malformed di f a id l SRD_ERR_PYTHON a);
             [exact Hin | | discriminate].
           unfold py_strlist_to_char. now rewrite Hstr.
    + assert (Hnot : ~ indexes_format (decoder di) (ann_id_of id))
        by (unfold indexes_format; lia).
      eexists _, _. split.
      * apply convert_unregistered.
        exact (not_indexes_format_missing _ _ Hnot).
      * now apply format_not_registered.
  - eexists _, _. split; [apply convert_tuple | apply tuple_has_no_size].
Qed.

(** X1.  The converter returns [SRD_OK] exactly for a list (not a tuple)
    of two elements whose first is an integer that, converted to [int] and
    then to an unsigned index, is within the registered annotation formats,
    and whose second is a list that [py_strlist_to_char] converts; it then
    leaves that [int] in the format cell and the converted strings in the
    other, logs nothing and keeps the engine. *)
Theorem convert_pyobj_accepts_iff (di : srd_decoder_instance) (obj : pyobj)
    (f : Z) (a : option (list string)) (e e' : engine) (fmt' : Z)
    (ann' : option (list string)) (t : list event) :
  convert_pyobj di obj f a e = Done (SRD_OK, fmt', ann') e' t
  <-> exists id items,
        obj = PyList [PyLong id; PyList items]
        /\ indexes_format (decoder di) (ann_id_of id)
        /\ py_strlist_to_char (PyList items) a = (SRD_OK, ann')
        /\ fmt' = ann_id_of id /\ e' = e /\ t = [].
Proof.
  split.
  - intros Hrun.
    destruct (convert_pyobj_validation di obj f a e) as (r & t0 & Hconv & Hval).
    rewrite Hconv in Hrun. injection Hrun as -> -> ->.
    inversion Hval; subst. exists id, items. auto 6.
  - intros (id & items & -> & Hin & Hstr & -> & -> & ->).
    destruct (indexes_format_found _ _ Hin) as [reg Hreg].
    destruct (py_strlist_to_char_ok _ _ _ Hstr) as (strs & Hitems & ->).
    exact (convert_accepts di f a e id items reg strs Hreg Hitems).
Qed.

(** X2.  The converter always returns, and never faults on the elements of
    the payload; its status is [SRD_OK] or [SRD_ERR_PYTHON]; it keeps the
    engine; it logs nothing when it accepts and exactly one diagnostic when
    it rejects; it calls no callback and no successor. *)
Theorem convert_pyobj_logs_each_rejection_once (di : srd_decoder_instance)
    (obj : pyobj) (f : Z) (a : option (list string)) (e : engine) :
  exists status f' a' t,
    convert_pyobj di obj f a e = Done (status, f', a') e t
    /\ (status = SRD_OK /\ t = []
        \/ status = SRD_ERR_PYTHON /\ exists m, t = [Ev_srd_err m]).
Proof.
  destruct (convert_pyobj_validation di obj f a e) as (r & t & Hconv & Hval).
  destruct Hval; eexists _, _, _, _; (split; [exact Hconv|]);
    solve [left; split; reflexivity | right; split; eauto].
Qed.

(** X3.  The format cell never receives an index outside the registered
    formats: after the call it holds what it held, or an [int] that indexes
    a registered format; it holds such an [int] whenever the converter
    accepts, and also when the converter rejects the second element, the
    cell being written before the second element is looked at. *)
Theorem convert_pyobj_format_cell (di : srd_decoder_instance) (obj : pyobj)
    (f : Z) (a : option (list string)) (e : engine) :
  exists status f' a' t,
    convert_pyobj di obj f a e = Done (status, f', a') e t
    /\ (f' = f \/ indexes_format (decoder di) f')
    /\ (status = SRD_OK -> indexes_format (decoder di) f')
    /\ (forall id second,
          obj = PyList [PyLong id; second] ->
          indexes_format (decoder di) (ann_id_of id) ->
          f' = ann_id_of id).
Proof.
  destruct (convert_pyobj_validation di obj f a e) as (r & t & Hconv & Hval).
  destruct Hval; eexists _, _, _, _; (split; [exact Hconv|]);
    (split; [auto|]); (split; [try discriminate; auto|]);
    intros id' second' Hobj Hin; inversion Hobj; subst; simpl in *;
    try reflexivity; try contradiction; try congruence.
Qed.

(** X4.  With fewer than 2^31 formats registered, a negative format id and
    an id outside the range of [long] are rejected as unregistered, whatever
    the second element is: a negative [int] is reported as it is, and an id
    that does not fit a [long] is reported as -1, the error value of
    [PyLong_AsLong]. *)
Theorem convert_pyobj_rejects_ids_below_zero_or_beyond_long
    (di : srd_decoder_instance) (id : Z) (second : pyobj) (f : Z)
    (a : option (list string)) (e : engine) :
  Z.of_nat (List.length (annotations (decoder di))) <= 2 ^ 31 ->
  INT_MIN <= id < 0 \/ id < LONG_MIN \/ LONG_MAX < id ->
  convert_pyobj di (PyList [PyLong id; second]) f a e
  = Done (SRD_ERR_PYTHON, f, a) e
      [Ev_srd_err (Msg_unregistered_format (name (decoder di))
                     (if in_int_range id then id else -1))].
Proof.
  intros Hlen Hid.
  assert (Hann : ann_id_of id = (if in_int_range id then id else -1)
                 /\ INT_MIN <= ann_id_of id < 0).
  { unfold ann_id_of, PyLong_AsLong, in_int_range.
    unfold INT_MIN, INT_MAX, LONG_MIN, LONG_MAX in *.
    destruct Hid as [Hneg|[Hlow|Hhigh]].
    - replace (- 2 ^ 63 <=? id) with true by (symmetry; apply Z.leb_le; lia).
      replace (id <=? 2 ^ 63 - 1) with true by (symmetry; apply Z.leb_le; lia).
      replace (- 2 ^ 31 <=? id) with true by (symmetry; apply Z.leb_le; lia).
      replace (id <=? 2 ^ 31 - 1) with true by (symmetry; apply Z.leb_le; lia).
      cbn [andb]. rewrite to_int_small by (unfold INT_MIN, INT_MAX; lia).
      split; [reflexivity | lia].
    - replace (- 2 ^ 63 <=? id) with false by (symmetry; apply Z.leb_gt; lia).
      replace (- 2 ^ 31 <=? id) with false by (symmetry; apply Z.leb_gt; lia).
      cbn [andb]. split; [reflexivity | vm_compute; split; congruence].
    - replace (id <=? 2 ^ 63 - 1) with false by (symmetry; apply Z.leb_gt; lia).
      replace (id <=? 2 ^ 31 - 1) with false by (symmetry; apply Z.leb_gt; lia).
      rewrite !andb_false_r.
      split; [reflexivity | vm_compute; split; congruence]. }
  destruct Hann as [Hshown Hrange]. rewrite <- Hshown.
  apply convert_unregistered. apply g_slist_nth_beyond.
  fold (ann_id_of id). rewrite to_guint_negative by exact Hrange.
  unfold INT_MIN in Hrange. lia.
Qed.

(** X6.  The checks stop at the first that fails: when the first element is
    not an integer, or is an integer that indexes no registered format, the
    converter rejects the payload without looking at the second element,
    and leaves both cells as it found them. *)
Theorem convert_pyobj_stops_at_the_first_element (di : srd_decoder_instance)
    (first second second' : pyobj) (f : Z) (a : option (list string))
    (e : engine) :
  PyLong_Check first = false
  \/ (exists id, first = PyLong id
                 /\ ~ indexes_format (decoder di) (ann_id_of id)) ->
  convert_pyobj di (PyList [first; second]) f a e
  = convert_pyobj di (PyList [first; second']) f a e
  /\ exists m,
       convert_pyobj di (PyList [first; second]) f a e
       = Done (SRD_ERR_PYTHON, f, a) e [Ev_srd_err m].
Proof.
  intros [Hfirst|(id & -> & Hout)].
  - rewrite !(convert_first_not_integer di f a e first) by exact Hfirst.
    split; [reflexivity | eauto].
  - pose proof (not_indexes_format_missing _ _ Hout) as Hmissing.
    rewrite !(convert_unregistered di f a e id) by exact Hmissing.
    split; [reflexivity | eauto].
Qed.

(** ** Every call of [put] *)

Lemma validation_accepted (di : srd_decoder_instance) (obj : pyobj) (f f' : Z)
    (a' : option (list string)) (t : list event) :
  validation di f None obj (SRD_OK, f', a') t ->
  accepted_payload di obj /\ indexes_format (decoder di) f' /\ t = [].
Proof.
  intros Hval. inversion Hval; subst.
  split; [|split; [assumption | reflexivity]].
  exists id, items. split; [reflexivity|]. split; [assumption|].
  match goal with H : py_strlist_to_char _ _ = _ |- _ => now rewrite H end.
Qed.

Lemma validation_rejected (di : srd_decoder_instance) (obj : pyobj) (f f' : Z)
    (status : srd_status) (a' : option (list string)) (t : list event) :
  validation di f None obj (status, f', a') t ->
  status <> SRD_OK ->
  ~ accepted_payload di obj /\ exists m, t = [Ev_srd_err m].
Proof.
  intros Hval Hstatus. split.
  - intros (id & items & -> & Hin & Hok).
    inversion Hval; subst; try contradiction;
      match goal with
      | H : List.length _ <> _ |- _ => simpl in H; congruence
      | H : PyLong_Check _ = false |- _ => discriminate H
      | H : PyList_Check _ = false |- _ => discriminate H
      | H : py_strlist_to_char _ _ = _ |- _ =>
          rewrite H in Hok; simpl in Hok; congruence
      end.
  - inversion Hval; subst; eauto. contradiction.
Qed.

Lemma fan_out_engine
    (decode : srd_decoder_instance -> Z -> Z -> pyobj -> engine ->
              option pyobj * engine)
    (l : list srd_decoder_instance) (s en : Z) (d : pyobj)
    (e e' : engine) (t : list event) :
  fan_out decode s en d l e e' t ->
  e' = fold_left (fun e1 next => snd (decode next s en d e1)) l e.
Proof.
  induction 1 as [e | next l e e1 e' res t Hcall _ IH
                    | next l e e1 e' t Hcall _ IH]; simpl.
  - reflexivity.
  - now rewrite Hcall.
  - now rewrite Hcall.
Qed.

Section Coverage.

Variable decode :
  srd_decoder_instance -> Z -> Z -> pyobj -> engine -> option pyobj * engine.
Variable cb_call : N -> srd_proto_data -> engine -> engine.

Lemma put_no_instance (e : engine) (self : N) (args : pyobj) :
  get_di_by_decobject e self = None ->
  Decoder_put decode cb_call self args e = Done None e [].
Proof.
  intros Hdi. unfold Decoder_put. now rewrite bind_the_engine, Hdi.
Qed.

Lemma put_bad_args (e : engine) (self : N) (args : pyobj)
    (di : srd_decoder_instance) :
  get_di_by_decobject e self = Some di ->
  PyArg_ParseTuple_KKiO args = None ->
  Decoder_put decode cb_call self args e = Done None e [].
Proof.
  intros Hdi Hargs. unfold Decoder_put.
  now rewrite bind_the_engine, Hdi, Hargs.
Qed.

Lemma put_no_memory (e : engine) (self : N) (args : pyobj)
    (di : srd_decoder_instance) (s en h : Z) (d : pyobj)
    (pdo : srd_pd_output) :
  get_di_by_decobject e self = Some di ->
  PyArg_ParseTuple_KKiO args = Some (s, en, h, d) ->
  g_slist_nth (pd_output di) (to_guint h) = Some pdo ->
  mem_available e = false ->
  Decoder_put decode cb_call self args e = Done None e [].
Proof.
  intros Hdi Hargs Hnth Hmem. unfold Decoder_put.
  rewrite bind_the_engine, Hdi, Hargs, Hnth, bind_g_try_malloc0, Hmem.
  reflexivity.
Qed.

(** A call that gets to the [switch] returns [None], and what it does is
    one of the results of the [switch]. *)
Lemma put_switch (e : engine) (self : N) (args : pyobj)
    (di : srd_decoder_instance) (s en h : Z) (d : pyobj)
    (pdo : srd_pd_output) :
  get_di_by_decobject e self = Some di ->
  PyArg_ParseTuple_KKiO args = Some (s, en, h, d) ->
  g_slist_nth (pd_output di) (to_guint h) = Some pdo ->
  mem_available e = true ->
  exists e' t,
    Decoder_put decode cb_call self args e = Done (Some Py_None) e' t
    /\ switch_result decode cb_call di s en d pdo e e' t.
Proof.
  intros Hdi Hargs Hnth Hmem. unfold Decoder_put.
  rewrite bind_the_engine, Hdi, Hargs, Hnth, bind_g_try_malloc0, Hmem.
  cbn [negb].
  destruct (output_type pdo =? SRD_OUTPUT_ANN) eqn:Hann.
  { apply Z.eqb_eq in Hann. unfold bind at 1. rewrite bind_the_engine, Hann.
    destruct (srd_find_callback e SRD_OUTPUT_ANN) as [cb|] eqn:Hcb.
    - destruct (convert_pyobj_validation di d 0 None e)
        as ([[status f'] a'] & t & Hconv & Hval).
      unfold ann_of_data. cbn [ann_format data].
      rewrite (bind_done _ _ _ _ _ _ Hconv).
      destruct status.
      + destruct (validation_accepted _ _ _ _ _ _ Hval) as (Hacc & Hin & ->).
        eexists _, _. split; [reflexivity|].
        now apply switch_callback.
      + destruct (validation_rejected _ _ _ _ _ _ _ Hval) as (Hrej & m & ->);
          [discriminate|].
        eexists _, _. split; [reflexivity|].
        now apply (switch_rejected _ _ _ _ _ _ _ _ cb m).
      + destruct (validation_rejected _ _ _ _ _ _ _ Hval) as (Hrej & m & ->);
          [discriminate|].
        eexists _, _. split; [reflexivity|].
        now apply (switch_rejected _ _ _ _ _ _ _ _ cb m).
    - eexists _, _. split; [reflexivity|]. now apply switch_nothing. }
  apply Z.eqb_neq in Hann.
  destruct (output_type pdo =? SRD_OUTPUT_PROTO) eqn:Hproto.
  { apply Z.eqb_eq in Hproto.
    destruct (call_next_di_runs decode (next_di di) s en d e)
      as (e' & t & Hrun & Hfan).
    rewrite (bind_done _ _ _ _ _ _ Hrun). unfold ret. rewrite app_nil_r.
    eexists _, _. split; [reflexivity|]. now apply switch_fan_out. }
  apply Z.eqb_neq in Hproto.
  destruct (output_type pdo =? SRD_OUTPUT_BINARY) eqn:Hbin.
  { apply Z.eqb_eq in Hbin.
    eexists _, _. split; [reflexivity|]. now apply switch_binary. }
  apply Z.eqb_neq in Hbin.
  eexists _, _. split; [reflexivity|]. now apply switch_unknown.
Qed.

(** Every call returns: [NULL] before the [switch], with the engine kept
    and at most the diagnostic of the handle logged, or [None] after it. *)
Lemma put_outcome (e : engine) (self : N) (args : pyobj) :
  exists r e' t,
    Decoder_put decode cb_call self args e = Done r e' t
    /\ (r = None /\ e' = e /\ ~ reaches_switch e self args
        /\ (t = [] \/ exists m, t = [Ev_srd_err m])
        \/ r = Some Py_None
           /\ exists di s en h d pdo,
                get_di_by_decobject e self = Some di
                /\ PyArg_ParseTuple_KKiO args = Some (s, en, h, d)
                /\ g_slist_nth (pd_output di) (to_guint h) = Some pdo
                /\ mem_available e = true
                /\ switch_result decode cb_call di s en d pdo e e' t).
Proof.
  destruct (get_di_by_decobject e self) as [di|] eqn:Hdi.
  2: { eexists _, _, _. split; [now apply put_no_instance|]. left.
       repeat split; auto.
       intros (di & s & en & h & d & pdo & H & _). congruence. }
  destruct (PyArg_ParseTuple_KKiO args) as [[[[s en] h] d]|] eqn:Hargs.
  2: { eexists _, _, _. split; [now apply (put_bad_args e self args di)|].
       left. repeat split; auto.
       intros (di' & s & en & h & d & pdo & _ & H & _). congruence. }
  destruct (g_slist_nth (pd_output di) (to_guint h)) as [pdo|] eqn:Hnth.
  2: { eexists _, _, _.
       split; [exact (put_unresolved decode cb_call e self args di s en h d
                        Hdi Hargs Hnth)|].
       left. repeat split; eauto.
       intros (di' & s' & en' & h' & d' & pdo & H1 & H2 & H3 & _).
       congruence. }
  destruct (mem_available e) eqn:Hmem.
  2: { eexists _, _, _.
       split; [exact (put_no_memory e self args di s en h d pdo
                        Hdi Hargs Hnth Hmem)|].
       left. repeat split; auto.
       intros (di' & s' & en' & h' & d' & pdo' & _ & _ & _ & H). congruence. }
  destruct (put_switch e self args di s en h d pdo Hdi Hargs Hnth Hmem)
    as (e' & t & Hrun & Hsw).
  exists (Some Py_None), e', t. split; [exact Hrun|]. right.
  split; [reflexivity|]. exists di, s, en, h, d, pdo. auto 6.
Qed.

Lemma switch_result_facts (di : srd_decoder_instance) (s en : Z) (d : pyobj)
    (pdo : srd_pd_output) (e e' : engine) (t : list event) :
  switch_result decode cb_call di s en d pdo e e' t ->
  (callback_calls t = [] \/ decode_calls t = [])
  /\ (List.length (callback_calls t) <= 1)%nat
  /\ (List.length (diagnostics t) <= 1)%nat
  /\ (diagnostics t <> [] ->
      callback_calls t = [] /\ decode_calls t = [] /\ e' = e)
  /\ (callback_calls t = [] -> decode_calls t = [] -> e' = e).
Proof.
  destruct 1 as [cb fmt strs Hty Hcb Hacc Hin | e' t Hty Hfan
                 | Hty Hcb | cb m Hty Hcb Hrej | Hty | H1 H2 H3];
    simpl; try (repeat split; auto; discriminate || congruence).
  rewrite (fan_out_callback_calls decode _ _ _ _ _ _ _ Hfan).
  rewrite (fan_out_diagnostics decode _ _ _ _ _ _ _ Hfan).
  rewrite (fan_out_decode_calls decode _ _ _ _ _ _ _ Hfan).
  repeat split; auto; try congruence.
  intros _ Hnone. destruct (next_di di); [|discriminate Hnone].
  now inversion Hfan.
Qed.

(** X7.  [put] returns [None] exactly when it gets as far as the [switch] on
    the output type, and [NULL] otherwise; it returns nothing else.  No
    failure inside the [switch] (a payload that the converter rejects, a
    successor that raises, a binary or an unknown output type) changes the
    result; and a call that returns [NULL] has dispatched nothing and has
    kept the engine. *)
Theorem put_returns_none_iff_reaches_switch (e : engine) (self : N)
    (args : pyobj) :
  exists r e' t,
    Decoder_put decode cb_call self args e = Done r e' t
    /\ (r = Some Py_None /\ reaches_switch e self args
        \/ r = None /\ ~ reaches_switch e self args /\ e' = e
           /\ callback_calls t = [] /\ decode_calls t = []).
Proof.
  destruct (put_outcome e self args)
    as (r & e' & t & Hrun & [(-> & -> & Hnot & Ht) | (-> & Hsw)]).
  - exists None, e, t. split; [exact Hrun|]. right.
    destruct Ht as [->|(m & ->)]; repeat split; auto.
  - exists (Some Py_None), e', t. split; [exact Hrun|]. left.
    split; [reflexivity|].
    destruct Hsw as (di & s & en & h & d & pdo & H1 & H2 & H3 & H4 & _).
    exists di, s, en, h, d, pdo. auto.
Qed.

(** X8.  One call of [put] dispatches one way at most: it never calls both
    a callback and a successor, it calls a callback at most once, and it
    logs at most one diagnostic; when it logs a diagnostic it has called
    neither a callback nor a successor and has kept the engine. *)
Theorem put_dispatches_one_way (e : engine) (self : N) (args : pyobj) :
  exists r e' t,
    Decoder_put decode cb_call self args e = Done r e' t
    /\ (callback_calls t = [] \/ decode_calls t = [])
    /\ (List.length (callback_calls t) <= 1)%nat
    /\ (List.length (diagnostics t) <= 1)%nat
    /\ (diagnostics t <> [] ->
        callback_calls t = [] /\ decode_calls t = [] /\ e' = e).
Proof.
  destruct (put_outcome e self args)
    as (r & e' & t & Hrun & [(-> & -> & Hnot & Ht) | (-> & Hsw)]).
  - exists None, e, t. split; [exact Hrun|].
    destruct Ht as [->|(m & ->)]; simpl; repeat split; auto.
  - exists (Some Py_None), e', t. split; [exact Hrun|].
    destruct Hsw as (di & s & en & h & d & pdo & _ & _ & _ & _ & Hsw).
    destruct (switch_result_facts _ _ _ _ _ _ _ _ Hsw)
      as (H1 & H2 & H3 & H4 & _).
    auto.
Qed.

(** X9.  [put] changes the engine through the functions it calls only: a
    call that has called no callback and no successor leaves the engine
    exactly as it found it, whatever its arguments and its result. *)
Theorem put_changes_the_engine_through_its_callees_only (e : engine)
    (self : N) (args : pyobj) :
  exists r e' t,
    Decoder_put decode cb_call self args e = Done r e' t
    /\ (callback_calls t = [] -> decode_calls t = [] -> e' = e).
Proof.
  destruct (put_outcome e self args)
    as (r & e' & t & Hrun & [(-> & -> & Hnot & Ht) | (-> & Hsw)]).
  - exists None, e, t. auto.
  - exists (Some Py_None), e', t. split; [exact Hrun|].
    destruct Hsw as (di & s & en & h & d & pdo & _ & _ & _ & _ & Hsw).
    now destruct (switch_result_facts _ _ _ _ _ _ _ _ Hsw)
      as (_ & _ & _ & _ & H).
Qed.

(** X10.  When the decoder object has no instance, when the arguments do
    not parse, or when no memory is available for the data unit, [put]
    returns [NULL], calls nothing and keeps the engine; and it logs nothing,
    unless the handle finds no output stream either, which is looked at
    before the allocation and logged as an invalid output id. *)
Theorem put_fails_silently (e : engine) (self : N) (args : pyobj) :
  get_di_by_decobject e self = None
  \/ PyArg_ParseTuple_KKiO args = None
  \/ mem_available e = false ->
  exists t,
    Decoder_put decode cb_call self args e = Done None e t
    /\ callback_calls t = [] /\ decode_calls t = []
    /\ (t = []
        \/ exists di s en h d,
             get_di_by_decobject e self = Some di
             /\ PyArg_ParseTuple_KKiO args = Some (s, en, h, d)
             /\ g_slist_nth (pd_output di) (to_guint h) = None
             /\ t = [Ev_srd_err
                       (Msg_invalid_output_id (name (decoder di)) h)]).
Proof.
  intros Hfail.
  destruct (get_di_by_decobject e self) as [di|] eqn:Hdi.
  2: { exists []. rewrite (put_no_instance e self args Hdi). auto. }
  destruct (PyArg_ParseTuple_KKiO args) as [[[[s en] h] d]|] eqn:Hargs.
  2: { exists []. rewrite (put_bad_args e self args di Hdi Hargs). auto. }
  destruct Hfail as [Hfail|[Hfail|Hmem]]; try discriminate.
  destruct (g_slist_nth (pd_output di) (to_guint h)) as [pdo|] eqn:Hnth.
  - exists [].
    rewrite (put_no_memory e self args di s en h d pdo Hdi Hargs Hnth Hmem).
    auto.
  - eexists.
    rewrite (put_unresolved decode cb_call e self args di s en h d
               Hdi Hargs Hnth).
    repeat split. right. exists di, s, en, h, d. auto.
Qed.

(** X11.  A [put] on a descriptor whose output type is none of annotation,
    protocol and binary logs the invalid output type with the name of the
    decoder and the value of the type, drops the emission (no callback, no
    successor, the engine kept) and returns [None]. *)
Theorem put_unknown_output_type_is_logged (e : engine) (self : N)
    (di : srd_decoder_instance) (s en h : Z) (payload : pyobj)
    (pdo : srd_pd_output) :
  get_di_by_decobject e self = Some di ->
  resolves di h pdo ->
  output_type pdo <> SRD_OUTPUT_ANN ->
  output_type pdo <> SRD_OUTPUT_PROTO ->
  output_type pdo <> SRD_OUTPUT_BINARY ->
  mem_available e = true ->
  Decoder_put decode cb_call self (put_args s en h payload) e
  = Done (Some Py_None) e
      [Ev_srd_err (Msg_invalid_output_type (name (decoder di))
                     (output_type pdo))].
Proof.
  intros Hdi Hres Hann Hproto Hbin Hmem.
  rewrite (put_resolved decode cb_call e self di s en h payload pdo
             Hdi Hres Hmem).
  apply Z.eqb_neq in Hann, Hproto, Hbin. rewrite Hann, Hproto, Hbin.
  reflexivity.
Qed.

(** X12.  On an annotation stream with a callback registered, the callback
    is called exactly when the converter accepts the payload: then it is
    called once, with the start and end samples as [uint64_t], the
    descriptor of the stream and a format id that indexes a registered
    format, and the engine is the one that the callback leaves; otherwise
    the callback is not called, one diagnostic is logged and the engine is
    kept.  [put] returns [None] in both cases. *)
Theorem put_annotation_callback_iff_accepted (e : engine) (self : N)
    (di : srd_decoder_instance) (s en h : Z) (payload : pyobj)
    (stream : srd_pd_output) (cb : N) :
  get_di_by_decobject e self = Some di ->
  resolves di h stream ->
  output_type stream = SRD_OUTPUT_ANN ->
  srd_find_callback e SRD_OUTPUT_ANN = Some cb ->
  mem_available e = true ->
  exists e' t,
    Decoder_put decode cb_call self (put_args s en h payload) e
    = Done (Some Py_None) e' t
    /\ (accepted_payload di payload ->
        exists pdata,
          t = [Ev_callback cb pdata] /\ e' = cb_call cb pdata e
          /\ start_sample pdata = to_uint64 s
          /\ end_sample pdata = to_uint64 en
          /\ pdo pdata = stream
          /\ indexes_format (decoder di) (ann_format pdata))
    /\ (~ accepted_payload di payload ->
        e' = e /\ exists m, t = [Ev_srd_err m]).
Proof.
  intros Hdi Hres Hty Hcb Hmem.
  assert (Hint : INT_MIN <= h <= INT_MAX)
    by (destruct Hres as [Hh _]; unfold INT_MIN; lia).
  destruct (put_switch e self _ di _ _ h payload stream Hdi
              (parse_put_args s en h payload Hint) (resolves_cell _ _ _ Hres)
              Hmem) as (e' & t & Hrun & Hsw).
  exists e', t. split; [exact Hrun|].
  destruct Hsw as [cb' fmt strs _ Hcb' Hacc Hin | e' t Hty' _
                   | _ Hcb' | cb' m _ _ Hrej | Hty' | H1 _ _];
    unfold SRD_OUTPUT_ANN, SRD_OUTPUT_PROTO, SRD_OUTPUT_BINARY in *;
    try congruence.
  - split; [|contradiction]. intros _.
    replace cb' with cb by congruence.
    eexists. split; [reflexivity|]. simpl. auto 7.
  - split; [contradiction|]. eauto.
Qed.

(** X13.  The start and end samples are taken modulo 2^64, the argument
    parser converting them to [unsigned long long] without a check: two
    calls whose samples differ by multiples of 2^64 are the same call. *)
Theorem put_takes_samples_modulo_2_64 (e : engine) (self : N)
    (s en h j k : Z) (payload : pyobj) :
  Decoder_put decode cb_call self
    (put_args (s + j * 2 ^ 64) (en + k * 2 ^ 64) h payload) e
  = Decoder_put decode cb_call self (put_args s en h payload) e.
Proof.
  assert (Hparse : PyArg_ParseTuple_KKiO
                     (put_args (s + j * 2 ^ 64) (en + k * 2 ^ 64) h payload)
                   = PyArg_ParseTuple_KKiO (put_args s en h payload)).
  { unfold put_args, PyArg_ParseTuple_KKiO, to_uint64.
    now rewrite !Z_mod_plus_full. }
  unfold Decoder_put. rewrite !bind_the_engine.
  destruct (get_di_by_decobject e self); [|reflexivity].
  now rewrite Hparse.
Qed.

(** X14.  In a protocol emission each successor's [decode] runs in the
    engine that the [decode] of the successor before it left: the engine
    after [put] is the engine before it taken through the calls in the
    order of [next_di].  The payload is not validated, so that no
    diagnostic is logged; and with no successor nothing happens at all. *)
Theorem put_protocol_threads_the_engine (e : engine) (self : N)
    (di : srd_decoder_instance) (s en h : Z) (payload : pyobj)
    (pdo : srd_pd_output) :
  get_di_by_decobject e self = Some di ->
  resolves di h pdo ->
  output_type pdo = SRD_OUTPUT_PROTO ->
  mem_available e = true ->
  exists t,
    Decoder_put decode cb_call self (put_args s en h payload) e
    = Done (Some Py_None)
        (fold_left
           (fun e1 next =>
              snd (decode next (to_uint64 s) (to_uint64 en) payload e1))
           (next_di di) e) t
    /\ diagnostics t = []
    /\ (next_di di = [] -> t = []).
Proof.
  intros Hdi Hres Hty Hmem.
  assert (Hint : INT_MIN <= h <= INT_MAX)
    by (destruct Hres as [Hh _]; unfold INT_MIN; lia).
  destruct (put_switch e self _ di _ _ h payload pdo Hdi
              (parse_put_args s en h payload Hint) (resolves_cell _ _ _ Hres)
              Hmem) as (e' & t & Hrun & Hsw).
  exists t.
  destruct Hsw as [cb' fmt strs Hty' | e' t _ Hfan
                   | Hty' | cb' m Hty' | Hty' | _ H2 _];
    unfold SRD_OUTPUT_ANN, SRD_OUTPUT_PROTO, SRD_OUTPUT_BINARY in *;
    try congruence.
  rewrite <- (fan_out_engine decode _ _ _ _ _ _ _ Hfan).
  split; [exact Hrun|].
  split; [exact (fan_out_diagnostics decode _ _ _ _ _ _ _ Hfan)|].
  intros Hnone. rewrite Hnone in Hfan. now inversion Hfan.
Qed.

(** X15.  An instance of a decoder that registered no annotation format
    never gets an annotation to a callback: whatever the arguments of the
    [put], no callback is called. *)
Theorem put_without_formats_calls_no_callback (e : engine) (self : N)
    (di : srd_decoder_instance) (args : pyobj) :
  get_di_by_decobject e self = Some di ->
  annotations (decoder di) = [] ->
  exists r e' t,
    Decoder_put decode cb_call self args e = Done r e' t
    /\ callback_calls t = [].
Proof.
  intros Hdi Hnone.
  destruct (put_outcome e self args)
    as (r & e' & t & Hrun & [(-> & -> & Hnot & Ht) | (-> & Hsw)]).
  - exists None, e, t. split; [exact Hrun|].
    now destruct Ht as [->|(m & ->)].
  - exists (Some Py_None), e', t. split; [exact Hrun|].
    destruct Hsw as (di' & s & en & h & d & pdo & Hdi' & _ & _ & _ & Hsw).
    assert (di' = di) by congruence. subst di'.
    destruct Hsw as [cb fmt strs _ _ _ Hin | e' t _ Hfan
                     | | | | ]; try reflexivity.
    + unfold indexes_format in Hin. rewrite Hnone in Hin. simpl in Hin.
      pose proof (to_guint_range fmt). lia.
    + exact (fan_out_callback_calls decode _ _ _ _ _ _ _ Hfan).
Qed.

End Coverage.

(** ** Every call of [add] *)

Section Coverage_add.

Variable pd_add :
  srd_decoder_instance -> Z -> string -> engine -> Z * engine.

(** X16.  [add] fails before it reaches the registry in two cases: for a
    decoder object without an instance it logs a debug line, sets a Python
    exception with the text "decoder instance not found" and returns
    [NULL]; for arguments that do not parse it reports the pending
    exception and returns [NULL].  The engine is kept in both. *)
Theorem add_fails_before_the_registry (e : engine) (self : N)
    (args : pyobj) :
  get_di_by_decobject e self = None \/ PyArg_ParseTuple_is args = None ->
  Decoder_add pd_add self args e
  = Done None e
      (match get_di_by_decobject e self with
       | None => [Ev_srd_dbg Msg_instance_not_found;
                  Ev_PyErr_SetString "decoder instance not found"]
       | Some _ => [Ev_catch_exception ""]
       end).
Proof.
  intros Hfail. unfold Decoder_add. rewrite bind_the_engine.
  destruct (get_di_by_decobject e self) as [di|]; [|reflexivity].
  destruct Hfail as [Hfail|Hfail]; [discriminate|].
  now rewrite Hfail.
Qed.

(** X17.  An integer that [add] returns is never negative, and it is the
    handle that the registry returned for the instance of the decoder
    object and the parsed arguments, the engine being the one that the
    registry left; [add] returns nothing but [NULL], [None] or such an
    integer, and when it returns [NULL] the engine is kept. *)
Theorem add_never_returns_a_negative_handle (e : engine) (self : N)
    (args : pyobj) :
  exists r e' t,
    Decoder_add pd_add self args e = Done r e' t
    /\ (r = None /\ e' = e
        \/ r = Some Py_None /\ t = []
        \/ exists v di output_type proto_id,
             r = Some (PyLong v) /\ 0 <= v /\ t = []
             /\ get_di_by_decobject e self = Some di
             /\ PyArg_ParseTuple_is args = Some (output_type, proto_id)
             /\ pd_add di output_type proto_id e = (v, e')).
Proof.
  unfold Decoder_add. rewrite bind_the_engine.
  destruct (get_di_by_decobject e self) as [di|] eqn:Hdi.
  2: { eexists _, _, _. split; [reflexivity|]. left. auto. }
  destruct (PyArg_ParseTuple_is args) as [[output_type proto_id]|] eqn:Hargs.
  2: { eexists _, _, _. split; [reflexivity|]. left. auto. }
  unfold bind, run_pd_add.
  destruct (pd_add di output_type proto_id e) as [pdo_id e'] eqn:Hadd.
  destruct (pdo_id <? 0) eqn:Hneg.
  - eexists _, _, _. split; [reflexivity|]. right. left. auto.
  - apply Z.ltb_ge in Hneg.
    eexists _, _, _. split; [reflexivity|]. right. right.
    exists pdo_id, di, output_type, proto_id. auto 7.
Qed.

End Coverage_add.

(** ** The further properties on the small engine *)

Module Coverage_runs.

Import Sample.
Local Open Scope string_scope.

Lemma convert_pyobj_rejects_ids_below_zero_or_beyond_long_witness :
  convert_pyobj di_a (PyList [PyLong (2 ^ 63); PyList [PyUnicode "x"]]) 0 None
    with_callback
  = Done (SRD_ERR_PYTHON, 0, None) with_callback
      [Ev_srd_err (Msg_unregistered_format "uart" (-1))].
Proof.
  apply (convert_pyobj_rejects_ids_below_zero_or_beyond_long di_a (2 ^ 63)
           (PyList [PyUnicode "x"]) 0 None with_callback).
  - simpl. lia.
  - right. right. unfold LONG_MAX. lia.
Defined.

Lemma convert_pyobj_modulo_witness :
  convert_pyobj di_a
    (PyList [PyLong (1 + 3 * 2 ^ 32); PyList [PyUnicode "x"]]) 0 None
    with_callback
  = convert_pyobj di_a (PyList [PyLong 1; PyList [PyUnicode "x"]]) 0 None
      with_callback.
Proof.
  apply (convert_pyobj_modulo di_a 1 3 (PyList [PyUnicode "x"]) 0 None
           with_callback).
  - unfold LONG_MIN, LONG_MAX. lia.
  - unfold LONG_MIN, LONG_MAX. lia.
Defined.

Lemma convert_pyobj_stops_at_the_first_element_witness :
  convert_pyobj di_a (PyList [PyUnicode "a"; PyLong 3]) 0 None with_callback
  = convert_pyobj di_a (PyList [PyUnicode "a"; PyList []]) 0 None
      with_callback
  /\ exists m,
       convert_pyobj di_a (PyList [PyUnicode "a"; PyLong 3]) 0 None
         with_callback
       = Done (SRD_ERR_PYTHON, 0, None) with_callback [Ev_srd_err m].
Proof.
  apply (convert_pyobj_stops_at_the_first_element di_a (PyUnicode "a")
           (PyLong 3) (PyList []) 0 None with_callback).
  left. reflexivity.
Defined.

Lemma put_fails_silently_witness :
  exists t,
    put 7 (put_args 100 110 0 (PyLong 7)) with_callback
    = Done None with_callback t
    /\ callback_calls t = [] /\ decode_calls t = []
    /\ (t = []
        \/ exists di s en h d,
             get_di_by_decobject with_callback 7 = Some di
             /\ PyArg_ParseTuple_KKiO (put_args 100 110 0 (PyLong 7))
                = Some (s, en, h, d)
             /\ g_slist_nth (pd_output di) (to_guint h) = None
             /\ t = [Ev_srd_err
                       (Msg_invalid_output_id (name (decoder di)) h)]).
Proof.
  apply (put_fails_silently decode host_callback with_callback 7
           (put_args 100 110 0 (PyLong 7))).
  left. reflexivity.
Defined.

Lemma put_unknown_output_type_is_logged_witness :
  put 1 (put_args 100 110 3 (PyLong 7)) with_callback
  = Done (Some Py_None) with_callback
      [Ev_srd_err (Msg_invalid_output_type "uart" 7)].
Proof.
  apply (put_unknown_output_type_is_logged decode host_callback
           with_callback 1 di_a 100 110 3 (PyLong 7) out_unknown).
  - reflexivity.
  - split; [unfold INT_MAX; lia | reflexivity].
  - discriminate.
  - discriminate.
  - discriminate.
  - reflexivity.
Defined.

Lemma put_annotation_callback_iff_accepted_witness :
  exists e' t,
    put 1 (put_args 100 110 0 (annotation_payload 0 ["1"])) with_callback
    = Done (Some Py_None) e' t
    /\ (accepted_payload di_a (annotation_payload 0 ["1"]) ->
        exists pdata,
          t = [Ev_callback 64 pdata]
          /\ e' = host_callback 64 pdata with_callback
          /\ start_sample pdata = to_uint64 100
          /\ end_sample pdata = to_uint64 110
          /\ pdo pdata = out_ann
          /\ indexes_format (decoder di_a) (ann_format pdata))
    /\ (~ accepted_payload di_a (annotation_payload 0 ["1"]) ->
        e' = with_callback /\ exists m, t = [Ev_srd_err m]).
Proof.
  apply (put_annotation_callback_iff_accepted decode host_callback
           with_callback 1 di_a 100 110 0 (annotation_payload 0 ["1"])
           out_ann 64).
  - reflexivity.
  - split; [unfold INT_MAX; lia | reflexivity].
  - reflexivity.
  - reflexivity.
  - reflexivity.
Defined.

Lemma put_protocol_threads_the_engine_witness :
  exists t,
    put 1 (put_args 100 110 1 (PyLong 7)) with_callback
    = Done (Some Py_None)
        (fold_left
           (fun e1 next =>
              snd (decode next (to_uint64 100) (to_uint64 110) (PyLong 7) e1))
           [di_b; di_c] with_callback) t
    /\ diagnostics t = []
    /\ ([di_b; di_c] = [] -> t = []).
Proof.
  apply (put_protocol_threads_the_engine decode host_callback with_callback 1
           di_a 100 110 1 (PyLong 7) out_proto).
  - reflexivity.
  - split; [unfold INT_MAX; lia | reflexivity].
  - reflexivity.
  - reflexivity.
Defined.

Lemma put_without_formats_calls_no_callback_witness :
  exists r e' t,
    Decoder_put decode host_callback 9
      (put_args 100 110 0 (annotation_payload 0 ["1"]))
      Sample_plain.engine_plain
    = Done r e' t
    /\ callback_calls t = [].
Proof.
  apply (put_without_formats_calls_no_callback decode host_callback
           Sample_plain.engine_plain 9 Sample_plain.di_plain).
  - reflexivity.
  - reflexivity.
Defined.

Lemma add_fails_before_the_registry_witness :
  add 7 (add_args SRD_OUTPUT_PROTO "uart") with_callback
  = Done None with_callback
      [Ev_srd_dbg Msg_instance_not_found;
       Ev_PyErr_SetString "decoder instance not found"].
Proof.
  apply (add_fails_before_the_registry registry with_callback 7
           (add_args SRD_OUTPUT_PROTO "uart")).
  left. reflexivity.
Defined.

(** An output type that does not fit an [int] is refused by the parser of
    the arguments of [add]. *)
Example add_output_type_beyond_int :
  add 1 (add_args (2 ^ 31) "uart") with_callback
  = Done None with_callback [Ev_catch_exception ""].
Proof. reflexivity. Qed.

(** A start sample of -1 reaches the successors as 2^64 - 1. *)
Example put_negative_start_sample :
  decode_calls
    match put 1 (put_args (-1) 110 1 (PyLong 7)) with_callback with
    | Done _ _ t => t
    | Fault => []
    end
  = [(di_b, 18446744073709551615, 110, PyLong 7);
     (di_c, 18446744073709551615, 110, PyLong 7)].
Proof. reflexivity. Qed.

End Coverage_runs.
